(** * ChartjsNodeCanvas: a shallow embedding of the render facade

    The repository is one class, [ChartJSNodeCanvas], with a helper plugin
    class, [BackgroundColourPlugin].  It comes in three copies:

    - [src/index.ts], the TypeScript source (canvas provider @napi-rs/canvas);
    - [part_000], a compiled build with the plugin (provider skia-canvas);
    - [part_001], a compiled build without the plugin, which also has the
      two data-URL methods.

    The code is JavaScript glue around two external collaborators, the chart
    engine and the canvas provider.  JavaScript values, the object heap, the
    [global.Image] slot, [require.cache] and thrown errors are modelled
    explicitly; the collaborators are fields of a record, arbitrary in the
    general statements.

    What the model takes for granted: objects are plain property tables (no
    getters, proxies, frozen objects or inherited properties); the code runs
    in strict mode, as the compiled copies declare; [require('chart.js')]
    finds the module; a promise is seen once it has settled.  The platform's
    [String.prototype.toLowerCase], what chart.js registers while it loads,
    and whether the provider can allocate a canvas of a given size, are the
    collaborators' to say. *)

From Stdlib Require Import ZArith String Ascii List Bool.
From Stdlib Require Import Floats.SpecFloat.
From stdpp Require Import base option gmap strings list.

Local Open Scope string_scope.
Local Open Scope list_scope.

(** ** JavaScript values *)

Definition loc := nat.
Definition fn_id := nat.

(** A JavaScript number is an IEEE-754 double: [spec_float] has signed zeros,
    infinities, NaN and the finite values [(-1)^s * m * 2^e]. *)
Inductive value :=
| VUndefined
| VNull
| VBool (b : bool)
| VNumber (f : spec_float)
| VString (s : string)
| VRef (l : loc).

(** An object is a property table; a function is an object that can be
    called. *)
Record object := {
  props : gmap string value;
  callee : option fn_id;
}.

Definition empty_object : object := {| props := ∅; callee := None |}.

Definition obj_at (h : gmap loc object) (l : loc) : object :=
  default empty_object (h !! l).

(** [ToBoolean]: the falsy values are undefined, null, false, +0, -0, NaN
    and the empty string. *)
Definition to_boolean (v : value) : bool :=
  match v with
  | VUndefined | VNull => false
  | VBool b => b
  | VNumber (S754_zero _) | VNumber S754_nan => false
  | VNumber _ => true
  | VString s => negb (String.eqb s "")
  | VRef _ => true
  end.

Definition typeof (h : gmap loc object) (v : value) : string :=
  match v with
  | VUndefined => "undefined"
  | VNull => "object"
  | VBool _ => "boolean"
  | VNumber _ => "number"
  | VString _ => "string"
  | VRef l => match callee (obj_at h l) with
              | Some _ => "function"
              | None => "object"
              end
  end.

Definition is_null (v : value) : bool :=
  match v with VNull => true | _ => false end.

(** Lower-casing of the letters A-Z, which is what
    [String.prototype.toLowerCase] does on a string of ASCII characters; the
    sample process uses it as its platform's [toLowerCase]. *)
Definition lower_ascii (c : ascii) : ascii :=
  let n := nat_of_ascii c in
  if (65 <=? n)%nat && (n <=? 90)%nat then ascii_of_nat (n + 32) else c.

Fixpoint ascii_lower (s : string) : string :=
  match s with
  | EmptyString => EmptyString
  | String c s' => String (lower_ascii c) (ascii_lower s')
  end.

Definition num (z : Z) : value :=
  match z with
  | Z0 => VNumber (S754_zero false)
  | Zpos p => VNumber (S754_finite false p 0)
  | Zneg p => VNumber (S754_finite true p 0)
  end.

(** ** Errors and completions *)

(** What a [throw] carries.  [JsError] is [new Error(msg)] raised by the
    facade itself, [JsTypeError] is raised by the language (property access on
    undefined, calling a non-function, writing a property of a primitive in
    strict mode), and [Foreign] is whatever a collaborator or a caller's
    callback threw. *)
Inductive js_error :=
| JsError (msg : string)
| JsTypeError (what : string)
| Foreign (thrown : value).

Inductive completion (A : Type) :=
| Returned (a : A)
| Thrown (e : js_error).
Arguments Returned {A} a.
Arguments Thrown {A} e.

(** Result of a call into a collaborator. *)
Inductive ext_result (A : Type) :=
| ExtOk (a : A)
| ExtThrow (thrown : value).
Arguments ExtOk {A} a.
Arguments ExtThrow {A} thrown.

(** A promise, observed once settled. *)
Inductive settled (A : Type) :=
| Resolved (a : A)
| Rejected (e : js_error).
Arguments Resolved {A} a.
Arguments Rejected {A} e.

(** ** The canvas 2D context *)

Inductive ctx_call :=
| CSave
| CSetFillStyle (style : value)
| CFillRect (x y w h : value)
| CRestore.

(** The drawing state that [save] pushes and [restore] pops: the fill style
    and the remaining attributes (stroke style, transform, ...). *)
Record drawing_state := {
  fillStyle : value;
  attributes : gmap string value;
}.

Record context2d := {
  cur : drawing_state;
  saved : list drawing_state;
  painted : list (value * (value * value * value * value));
  calls : list ctx_call;
}.

Module Context2D.
Section Ops.
(** Whether the provider accepts a value as a fill style; a value it
    cannot parse leaves the attribute as it was. *)
Variable style_ok : value -> bool.

Definition called (c : ctx_call) (x : context2d) : context2d :=
  {| cur := cur x; saved := saved x; painted := painted x;
     calls := calls x ++ [c] |}.

(** [ctx.save()] *)
Definition save (x : context2d) : context2d :=
  called CSave
    {| cur := cur x; saved := cur x :: saved x; painted := painted x;
       calls := calls x |}.

(** [ctx.fillStyle = v] *)
Definition set_fillStyle (v : value) (x : context2d) : context2d :=
  called (CSetFillStyle v)
    (if style_ok v
     then {| cur := {| fillStyle := v; attributes := attributes (cur x) |};
             saved := saved x; painted := painted x; calls := calls x |}
     else x).

(** [ctx.fillRect(x, y, w, h)] paints with the current fill style. *)
Definition fillRect (a b w h : value) (x : context2d) : context2d :=
  called (CFillRect a b w h)
    {| cur := cur x; saved := saved x;
       painted := painted x ++ [(fillStyle (cur x), (a, b, w, h))];
       calls := calls x |}.

(** [ctx.restore()]: pops the saved state, or does nothing on an empty
    stack. *)
Definition restore (x : context2d) : context2d :=
  called CRestore
    match saved x with
    | [] => x
    | st :: rest =>
        {| cur := st; saved := rest; painted := painted x; calls := calls x |}
    end.
End Ops.
End Context2D.

(** ** Surfaces, charts, plugins *)

Definition buffer := list Byte.byte.

Record surface := {
  s_width : value;
  s_height : value;
  s_style : value;
  s_pixels : buffer;
}.

Record chart := {
  chart_id : nat;
  canvas : option surface;   (* [None]: chart.canvas is null *)
  ctx : context2d;
}.

(** [class BackgroundColourPlugin] ([src/index.ts] 28-45, [part_000] 5-19) *)
Module BackgroundColourPlugin.
Record t := {
  id : string;
  _width : value;
  _height : value;
  _fillStyle : value;
}.

Definition new (width height fill : value) : t :=
  {| id := "chartjs-plugin-chartjs-node-canvas-background-colour";
     _width := width; _height := height; _fillStyle := fill |}.

Section BeforeDraw.
Variable style_ok : value -> bool.

(** [beforeDraw(chart)] (37-44); [chart.ctx] is mutated, which shows in the
    chart returned here. *)
Definition beforeDraw (this : t) (c : chart) : chart :=
  let ctx0 := ctx c in
  let ctx1 := Context2D.save ctx0 in
  let ctx2 := Context2D.set_fillStyle style_ok (_fillStyle this) ctx1 in
  let ctx3 := Context2D.fillRect (num 0) (num 0) (_width this) (_height this) ctx2 in
  let ctx4 := Context2D.restore ctx3 in
  {| chart_id := chart_id c; canvas := canvas c; ctx := ctx4 |}.
End BeforeDraw.
End BackgroundColourPlugin.

(** What a chart engine module has registered. *)
Inductive component :=
| CBackground (p : BackgroundColourPlugin.t)
| COther (v : value).

(** ** The process *)

Inductive font_call :=
| RegisterFromPath (path family : value)     (* GlobalFonts.registerFromPath *)
| FontLibraryUse (family : value) (paths : list value).  (* FontLibrary.use *)

Record env := {
  heap : gmap loc object;
  global_Image : option value;          (* [None]: global has no Image *)
  require_cache : gmap string loc;
  registered : gmap loc (list component);
  fonts : list font_call;
}.

(** The encoding entry points of the two canvas providers. *)
Inductive encoder :=
| NapiEncode          (* @napi-rs/canvas  canvas.encode(format): Promise *)
| NapiToBuffer        (* @napi-rs/canvas  canvas.toBuffer(mime): Buffer *)
| SkiaToBuffer        (* skia-canvas      canvas.toBuffer(format): Promise *)
| SkiaToBufferSync    (* skia-canvas      canvas.toBufferSync(format): Buffer *)
| ToDataURLCallback   (* canvas.toDataURL(mime, callback) *)
| ToDataURL.          (* canvas.toDataURL(mime): string *)

Inductive event :=
| ERequire (module : string) (exports : value)
| ECall (fn : value) (args : list value)
| ERegister (engine : value) (c : component)
| EEvict (module : string)
| EEncode (api : encoder) (format : value)
| EDestroy (c : nat).

Record world := {
  w_env : env;
  w_log : list event;
}.

(** State and exception monad of the facade's code. *)
Definition M (A : Type) : Type := world -> completion A * world.

Definition ret {A} (a : A) : M A := fun w => (Returned a, w).
Definition throw {A} (e : js_error) : M A := fun w => (Thrown e, w).
Definition bind {A B} (m : M A) (k : A -> M B) : M B :=
  fun w => match m w with
           | (Returned a, w') => k a w'
           | (Thrown e, w') => (Thrown e, w')
           end.

Notation "'let!' x ':=' m 'in' k" := (bind m (fun x => k))
  (at level 10, x name, m at level 100, k at level 200).
Notation "m ';;' k" := (bind m (fun _ => k))
  (at level 100, k at level 200, right associativity).

Definition get_env : M env := fun w => (Returned (w_env w), w).
Definition modify_env (f : env -> env) : M unit :=
  fun w => (Returned tt, {| w_env := f (w_env w); w_log := w_log w |}).
Definition log (ev : event) : M unit :=
  fun w => (Returned tt, {| w_env := w_env w; w_log := w_log w ++ [ev] |}).

(** A collaborator acts on the environment, not on the log. *)
Definition call_ext {A} (f : env -> ext_result A * env) : M A :=
  fun w => match f (w_env w) with
           | (ExtOk a, e) => (Returned a, {| w_env := e; w_log := w_log w |})
           | (ExtThrow v, e) => (Thrown (Foreign v), {| w_env := e; w_log := w_log w |})
           end.

(** A collaborator that only returns or throws. *)
Definition lift_ext {A} (r : ext_result A) : M A :=
  match r with
  | ExtOk a => ret a
  | ExtThrow v => throw (Foreign v)
  end.

Definition set_heap (h : gmap loc object) (e : env) : env :=
  {| heap := h; global_Image := global_Image e; require_cache := require_cache e;
     registered := registered e; fonts := fonts e |}.
Definition set_global_Image (i : option value) (e : env) : env :=
  {| heap := heap e; global_Image := i; require_cache := require_cache e;
     registered := registered e; fonts := fonts e |}.
Definition set_require_cache (c : gmap string loc) (e : env) : env :=
  {| heap := heap e; global_Image := global_Image e; require_cache := c;
     registered := registered e; fonts := fonts e |}.
Definition set_registered (r : gmap loc (list component)) (e : env) : env :=
  {| heap := heap e; global_Image := global_Image e; require_cache := require_cache e;
     registered := r; fonts := fonts e |}.
Definition set_fonts (f : list font_call) (e : env) : env :=
  {| heap := heap e; global_Image := global_Image e; require_cache := require_cache e;
     registered := registered e; fonts := f |}.

(** ** Language primitives *)

(** [v.k] *)
Definition get_prop (v : value) (k : string) : M value :=
  match v with
  | VUndefined | VNull => throw (JsTypeError "Cannot read properties of undefined or null")
  | VRef l => fun w => (Returned (default VUndefined (props (obj_at (heap (w_env w)) l) !! k)), w)
  | _ => ret VUndefined
  end.

(** The heap after writing property [k] of object [l]. *)
Definition store (h : gmap loc object) (l : loc) (k : string) (x : value)
  : gmap loc object :=
  let o := obj_at h l in
  <[l := {| props := <[k := x]> (props o); callee := callee o |}]> h.

(** [v.k = x] in strict mode *)
Definition set_prop (v : value) (k : string) (x : value) : M unit :=
  match v with
  | VUndefined | VNull => throw (JsTypeError "Cannot set properties of undefined or null")
  | VRef l => modify_env (fun e => set_heap (store (heap e) l k x) e)
  | _ => throw (JsTypeError "Cannot create property on a primitive")
  end.

(** [{}] *)
Definition new_object : M value :=
  fun w =>
    let h := heap (w_env w) in
    let l := fresh (dom h) in
    (Returned (VRef l),
     {| w_env := set_heap (<[l := empty_object]> h) (w_env w); w_log := w_log w |}).

(** ** Collaborators *)

Record collaborators := {
  (** running a function object of the caller: this, arguments *)
  call_fn : fn_id -> value -> list value -> env -> ext_result value * env;
  (** the [Image] class exported by the canvas provider *)
  lib_Image : value;
  (** [String.prototype.toLowerCase] of the platform *)
  String_toLowerCase : string -> string;
  (** the function behind the [Chart] class that [require('chart.js')] loads *)
  Chart_fn : fn_id;
  (** the components chart.js registers on itself while it loads
      (controllers, elements, scales, plugins) *)
  Chart_builtins : list component;
  (** [new Canvas(width, height)], which the provider refuses for some
      dimensions *)
  Canvas_new : value -> value -> ext_result surface;
  (** [new Chart(context, configuration)]: lays out and paints *)
  Chart_new : value -> surface -> value -> env -> ext_result chart * env;
  (** promise-returning encoders *)
  encode_async : encoder -> surface -> value -> settled buffer;
  (** blocking encoders *)
  encode_sync : encoder -> surface -> value -> ext_result buffer;
  (** [canvas.toDataURL(mime, callback)]: the [(error, png)] handed to the
      callback, unless the call itself throws *)
  toDataURL_callback : surface -> value -> ext_result (value * value);
  (** [canvas.toDataURL(mime)] *)
  toDataURL_sync : surface -> value -> ext_result value;
}.

(** The facade object. *)
Record ChartJSNodeCanvas := {
  _width : value;
  _height : value;
  _image : value;
  _type : value;
  _chartJs : value;
}.

Section Facade.
Variable C : collaborators.

(** [f.call(this, ...args)] *)
Definition call_value (f this : value) (args : list value) : M value :=
  match f with
  | VRef l => fun w =>
      match callee (obj_at (heap (w_env w)) l) with
      | Some fid => (log (ECall f args) ;; call_ext (call_fn C fid this args)) w
      | None => throw (JsTypeError "not a function") w
      end
  | _ => throw (JsTypeError "not a function")
  end.

(** [v.toLowerCase()] *)
Definition method_toLowerCase (v : value) : M value :=
  match v with
  | VString s => ret (VString (String_toLowerCase C s))
  | VUndefined | VNull => throw (JsTypeError "Cannot read properties of undefined or null")
  | VRef _ => let! f := get_prop v "toLowerCase" in call_value f v []
  | _ => throw (JsTypeError "not a function")
  end.

(** [require(name)]: the cached exports, or a newly loaded module that is
    then cached.  A newly loaded chart.js is the [Chart] class, with the
    components it registers on itself while loading. *)
Definition require (name : string) : M value :=
  fun w =>
    let e := w_env w in
    match require_cache e !! name with
    | Some l => (log (ERequire name (VRef l)) ;; ret (VRef l)) w
    | None =>
        let l := fresh (dom (heap e)) in
        let e1 := set_heap (<[l := {| props := ∅; callee := Some (Chart_fn C) |}]> (heap e)) e in
        let e2 := set_registered (<[l := Chart_builtins C]> (registered e1)) e1 in
        let e3 := set_require_cache (<[name := l]> (require_cache e2)) e2 in
        (log (ERequire name (VRef l)) ;; ret (VRef l)) {| w_env := e3; w_log := w_log w |}
    end.

(** [delete require.cache[require.resolve(name)]] *)
Definition evict (name : string) : M unit :=
  modify_env (fun e => set_require_cache (delete name (require_cache e)) e) ;;
  log (EEvict name).

(** [chartJs.register(component)] *)
Definition Chart_register (chartJs : value) (c : component) : M unit :=
  match chartJs with
  | VRef l =>
      modify_env (fun e =>
        set_registered (<[l := default [] (registered e !! l) ++ [c]]> (registered e)) e) ;;
      log (ERegister chartJs c)
  | VUndefined | VNull => throw (JsTypeError "Cannot read properties of undefined or null")
  | _ => throw (JsTypeError "not a function")
  end.

(** [chart.destroy()] *)
Definition Chart_destroy (c : chart) : M unit := log (EDestroy (chart_id c)).

(** The constructor, which is the same text in the three copies; the
    private [initialize] it ends with differs in [part_001].

    [constructor(options)] ([src/index.ts] 96-113, [part_000] 27-42,
    [part_001] 11-26) *)
Definition constructor_ (initialize : value -> M value) (options : value)
  : M ChartJSNodeCanvas :=
  let! e := get_env in
  if is_null options || negb (String.eqb (typeof (heap e) options) "object") then
    throw (JsError "An options parameter object is required")
  else
  let! w := get_prop options "width" in
  if negb (to_boolean w) || negb (String.eqb (typeof (heap e) w) "number") then
    throw (JsError "A width option is required")
  else
  let! h := get_prop options "height" in
  if negb (to_boolean h) || negb (String.eqb (typeof (heap e) h) "number") then
    throw (JsError "A height option is required")
  else
  let! width := get_prop options "width" in
  let! height := get_prop options "height" in
  let image := lib_Image C in
  let! t := get_prop options "type" in
  let! type := (if to_boolean t
                then let! t' := get_prop options "type" in method_toLowerCase t'
                else ret t) in
  let! chartJs := initialize options in
  ret {| _width := width; _height := height; _image := image;
         _type := type; _chartJs := chartJs |}.

(** [renderChart(configuration)] ([src/index.ts] 167-179, [part_000] 85-97,
    [part_001] 108-120: the same text) *)
Definition renderChart (this : ChartJSNodeCanvas) (configuration : value) : M chart :=
  let! canvas0 := lift_ext (Canvas_new C (_width this) (_height this)) in
  let! style := (if to_boolean (s_style canvas0) then ret (s_style canvas0) else new_object) in
  let canvas1 := {| s_width := s_width canvas0; s_height := s_height canvas0;
                    s_style := style; s_pixels := s_pixels canvas0 |} in
  let! o := get_prop configuration "options" in
  let! o' := (if to_boolean o then ret o else new_object) in
  set_prop configuration "options" o' ;;
  let! o1 := get_prop configuration "options" in
  set_prop o1 "responsive" (VBool false) ;;
  let! o2 := get_prop configuration "options" in
  set_prop o2 "animation" (VBool false) ;;
  let context := canvas1 in
  modify_env (set_global_Image (Some (_image this))) ;;
  let! chart := call_ext (Chart_new C (_chartJs this) context configuration) in
  modify_env (set_global_Image None) ;;
  ret chart.
End Facade.

(** ** [src/index.ts] *)

Module IndexTs.
Section Methods.
Variable C : collaborators.

(** [initialize(options)] (153-165) *)
Definition initialize (options : value) : M value :=
  let! chartJs := require C "chart.js" in
  let! cb := get_prop options "chartCallback" in
  (if to_boolean cb
   then let! cb' := get_prop options "chartCallback" in
        call_value C cb' options [chartJs] ;; ret tt
   else ret tt) ;;
  let! w := get_prop options "width" in
  let! h := get_prop options "height" in
  Chart_register chartJs (CBackground (BackgroundColourPlugin.new w h (VString "#fff"))) ;;
  evict "chart.js" ;;
  ret chartJs.

Definition constructor (options : value) : M ChartJSNodeCanvas :=
  constructor_ C initialize options.

(** [renderToBuffer(configuration)] (123-126) *)
Definition renderToBuffer (this : ChartJSNodeCanvas) (configuration : value)
  : M (settled buffer) :=
  let! chart := renderChart C this configuration in
  match canvas chart with
  | None => throw (JsTypeError "Cannot read properties of undefined or null")
  | Some cv =>
      log (EEncode NapiEncode (VString "png")) ;;
      ret (encode_async C NapiEncode cv (VString "png"))
  end.

(** [renderToBufferSync(configuration)] (135-139) *)
Definition renderToBufferSync (this : ChartJSNodeCanvas) (configuration : value)
  : M buffer :=
  let! chart := renderChart C this configuration in
  match canvas chart with
  | None => throw (JsTypeError "Cannot read properties of undefined or null")
  | Some cv =>
      log (EEncode NapiToBuffer (VString "image/png")) ;;
      match encode_sync C NapiToBuffer cv (VString "image/png") with
      | ExtOk b => ret b
      | ExtThrow v => throw (Foreign v)
      end
  end.

(** [registerFont(path, options)] (149-151) *)
Definition registerFont (path options : value) : M unit :=
  let! family := get_prop options "family" in
  modify_env (fun e => set_fonts (fonts e ++ [RegisterFromPath path family]) e).
End Methods.
End IndexTs.

(** ** [part_000] *)

Module Part000.
Section Methods.
Variable C : collaborators.

(** [initialize(options)] (76-84) *)
Definition initialize (options : value) : M value :=
  let! chartJs := require C "chart.js" in
  let! cb := get_prop options "chartCallback" in
  (if to_boolean cb
   then let! cb' := get_prop options "chartCallback" in
        call_value C cb' options [chartJs] ;; ret tt
   else ret tt) ;;
  let! w := get_prop options "width" in
  let! h := get_prop options "height" in
  Chart_register chartJs (CBackground (BackgroundColourPlugin.new w h (VString "#fff"))) ;;
  evict "chart.js" ;;
  ret chartJs.

Definition constructor (options : value) : M ChartJSNodeCanvas :=
  constructor_ C initialize options.

(** [renderToBuffer(configuration)] (50-53) *)
Definition renderToBuffer (this : ChartJSNodeCanvas) (configuration : value)
  : M (settled buffer) :=
  let! chart := renderChart C this configuration in
  match canvas chart with
  | None => throw (JsTypeError "Cannot read properties of undefined or null")
  | Some cv =>
      log (EEncode SkiaToBuffer (VString "png")) ;;
      ret (encode_async C SkiaToBuffer cv (VString "png"))
  end.

(** [renderToBufferSync(configuration)] (61-64) *)
Definition renderToBufferSync (this : ChartJSNodeCanvas) (configuration : value)
  : M buffer :=
  let! chart := renderChart C this configuration in
  match canvas chart with
  | None => throw (JsTypeError "Cannot read properties of undefined or null")
  | Some cv =>
      log (EEncode SkiaToBufferSync (VString "png")) ;;
      match encode_sync C SkiaToBufferSync cv (VString "png") with
      | ExtOk b => ret b
      | ExtThrow v => throw (Foreign v)
      end
  end.

(** [registerFont(path, options)] (73-75) *)
Definition registerFont (path options : value) : M unit :=
  let! family := get_prop options "family" in
  modify_env (fun e => set_fonts (fonts e ++ [FontLibraryUse family [path]]) e).
End Methods.
End Part000.

(** ** [part_001] *)

Module Part001.
Section Methods.
Variable C : collaborators.

(** [initialize(options)] (100-107): this copy registers nothing. *)
Definition initialize (options : value) : M value :=
  let! chartJs := require C "chart.js" in
  let! cb := get_prop options "chartCallback" in
  (if to_boolean cb
   then let! cb' := get_prop options "chartCallback" in
        call_value C cb' options [chartJs] ;; ret tt
   else ret tt) ;;
  evict "chart.js" ;;
  ret chartJs.

Definition constructor (options : value) : M ChartJSNodeCanvas :=
  constructor_ C initialize options.

(** A parameter with default: [mimeType = 'image/png']. *)
Definition default_mimeType (mimeType : value) : value :=
  match mimeType with
  | VUndefined => VString "image/png"
  | _ => mimeType
  end.

(** [renderToDataURL(configuration, mimeType = 'image/png')] (34-49).
    The promise is given by how it settles. *)
Definition renderToDataURL (this : ChartJSNodeCanvas) (configuration mimeType : value)
  : M (settled value) :=
  let mimeType := default_mimeType mimeType in
  let! chart := renderChart C this configuration in
  match canvas chart with
  | None => ret (Rejected (JsError "Canvas is null"))
  | Some cv =>
      log (EEncode ToDataURLCallback mimeType) ;;
      match toDataURL_callback C cv mimeType with
      | ExtThrow v => ret (Rejected (Foreign v))
      | ExtOk (error, png) =>
          Chart_destroy chart ;;
          if to_boolean error then ret (Rejected (Foreign error))
          else ret (Resolved png)
      end
  end.

(** [renderToDataURLSync(configuration, mimeType = 'image/png')] (57-66) *)
Definition renderToDataURLSync (this : ChartJSNodeCanvas) (configuration mimeType : value)
  : M value :=
  let mimeType := default_mimeType mimeType in
  let! chart := renderChart C this configuration in
  match canvas chart with
  | None => throw (JsError "Canvas is null")
  | Some cv =>
      log (EEncode ToDataURL mimeType) ;;
      match toDataURL_sync C cv mimeType with
      | ExtThrow v => throw (Foreign v)
      | ExtOk dataUrl =>
          Chart_destroy chart ;;
          ret dataUrl
      end
  end.

(** [renderToBuffer(configuration)] (74-77) *)
Definition renderToBuffer (this : ChartJSNodeCanvas) (configuration : value)
  : M (settled buffer) :=
  let! chart := renderChart C this configuration in
  match canvas chart with
  | None => throw (JsTypeError "Cannot read properties of undefined or null")
  | Some cv =>
      log (EEncode SkiaToBuffer (VString "png")) ;;
      ret (encode_async C SkiaToBuffer cv (VString "png"))
  end.

(** [renderToBufferSync(configuration)] (85-88) *)
Definition renderToBufferSync (this : ChartJSNodeCanvas) (configuration : value)
  : M buffer :=
  let! chart := renderChart C this configuration in
  match canvas chart with
  | None => throw (JsTypeError "Cannot read properties of undefined or null")
  | Some cv =>
      log (EEncode SkiaToBufferSync (VString "png")) ;;
      match encode_sync C SkiaToBufferSync cv (VString "png") with
      | ExtOk b => ret b
      | ExtThrow v => throw (Foreign v)
      end
  end.

(** [registerFont(path, options)] (97-99) *)
Definition registerFont (path options : value) : M unit :=
  let! family := get_prop options "family" in
  modify_env (fun e => set_fonts (fonts e ++ [FontLibraryUse family [path]]) e).
End Methods.
End Part001.

(** ** Vocabulary of the properties *)

(** [v.k] read off a heap, [undefined] where there is no such property. *)
Definition field (h : gmap loc object) (v : value) (k : string) : value :=
match v with
| VRef l => default VUndefined (props (obj_at h l) !! k)
| _ => VUndefined
end.

(** An object that is neither null nor a function. *)
Definition is_object (h : gmap loc object) (v : value) : bool :=
match v with
| VRef l => match callee (obj_at h l) with
            | None => true
            | Some _ => false
            end
| _ => false
end.

(** A positive numeric value: a positive finite number or +Infinity. *)
Definition positive_number (v : value) : bool :=
match v with
| VNumber (S754_finite false _ _) | VNumber (S754_infinity false) => true
| _ => false
end.

(** A number other than +0, -0 and NaN, of either sign. *)
Definition nonzero_number (v : value) : bool :=
match v with
| VNumber (S754_finite _ _ _) | VNumber (S754_infinity _) => true
| _ => false
end.

(** Options the constructor is said to reject: not an object, or a width or
    height that is not a positive number. *)
Definition said_rejected (h : gmap loc object) (options : value) : bool :=
negb (is_object h options)
|| negb (positive_number (field h options "width"))
|| negb (positive_number (field h options "height")).

(** Options the constructor rejects. *)
Definition rejected (h : gmap loc object) (options : value) : bool :=
negb (is_object h options)
|| negb (nonzero_number (field h options "width"))
|| negb (nonzero_number (field h options "height")).

(** The completion is one of the constructor's own [throw new Error(...)]. *)
Definition validation_error {A} (r : completion A) : Prop :=
exists msg, r = Thrown (JsError msg).

(** The [type] option is absent (falsy) or a string. *)
Definition type_option_ok (v : value) : bool :=
match v with
| VString _ => true
| _ => negb (to_boolean v)
end.

(** What the constructor stores as [_type]: the lower-cased string, or the
    option itself when it is falsy (the empty string included). *)
Definition normal_type (C : collaborators) (t : value) : value :=
match t with
| VString s => if to_boolean t then VString (String_toLowerCase C s) else t
| _ => t
end.

(** [options.type && options.type.toLowerCase()], the expression the
    constructor stores as [_type]. *)
Definition type_step (C : collaborators) (options : value) : M value :=
  let! t := get_prop options "type" in
  if to_boolean t
  then let! t' := get_prop options "type" in method_toLowerCase C t'
  else ret t.

(** [if (options.chartCallback) { options.chartCallback(chartJs); }], the
    second statement of [initialize]. *)
Definition callback_step (C : collaborators) (options chartJs : value) : M unit :=
  let! cb := get_prop options "chartCallback" in
  if to_boolean cb
  then let! cb' := get_prop options "chartCallback" in
       call_value C cb' options [chartJs] ;; ret tt
  else ret tt.

(** The module [require(name)] returns: the cached one, or a new object. *)
Definition module_loc (e : env) (name : string) : loc :=
match require_cache e !! name with
| Some l => l
| None => fresh (dom (heap e))
end.

(** A computation that never throws one of the facade's own [Error]s. *)
Definition raises_no_Error {A} (m : M A) : Prop :=
forall w msg, fst (m w) <> Thrown (JsError msg).

(** The constructors of the three copies. *)
Definition constructors (C : collaborators) : list (value -> M ChartJSNodeCanvas) :=
[IndexTs.constructor C; Part000.constructor C; Part001.constructor C].

(** The fill style the background plugin is said to be built with. *)
Definition said_fill (h : gmap loc object) (options : value) : value :=
match field h options "backgroundColour" with
| VUndefined => VString "#fff"
| colour => colour
end.

(** The fill styles of the background plugins an engine has registered. *)
Definition background_fills (cs : list component) : list value :=
flat_map (fun c => match c with
                   | CBackground p => [BackgroundColourPlugin._fillStyle p]
                   | COther _ => []
                   end) cs.

Definition is_register (ev : event) : bool :=
match ev with
| ERegister _ (CBackground _) => true
| _ => false
end.

Definition is_destroy (ev : event) : bool :=
match ev with
| EDestroy _ => true
| _ => false
end.

(** The formats by which the providers name PNG. *)
Definition png_format (v : value) : bool :=
match v with
| VString s => String.eqb s "png" || String.eqb s "image/png"
| _ => false
end.

(** A font as the provider's registry knows it. *)
Record font_face := {
  face_path : value;
  face_family : value;
  face_weight : value;
  face_style : value;
}.

(** What a call tells the provider: a path and a family name, nothing on
    weight or style. *)
Definition told (c : font_call) : list font_face :=
match c with
| RegisterFromPath path family =>
    [{| face_path := path; face_family := family;
        face_weight := VUndefined; face_style := VUndefined |}]
| FontLibraryUse family paths =>
    map (fun path => {| face_path := path; face_family := family;
                        face_weight := VUndefined; face_style := VUndefined |}) paths
end.

Definition registry_faces (e : env) : list font_face := flat_map told (fonts e).

(** The registration [registerFont] is said to make: family name together
    with the weight and style of the options. *)
Definition said_face (h : gmap loc object) (path options : value) : font_face :=
{| face_path := path;
   face_family := field h options "family";
   face_weight := field h options "weight";
   face_style := field h options "style" |}.


(** The events a computation appends to the log. *)
Definition appended {A} (m : M A) (w : world) (evs : list event) : Prop :=
w_log (snd (m w)) = w_log w ++ evs.

(** A computation that touches nothing but the heap. *)
Definition heap_only {A} (m : M A) : Prop :=
forall w,
  w_log (snd (m w)) = w_log w
  /\ global_Image (w_env (snd (m w))) = global_Image (w_env w)
  /\ require_cache (w_env (snd (m w))) = require_cache (w_env w)
  /\ registered (w_env (snd (m w))) = registered (w_env w)
  /\ fonts (w_env (snd (m w))) = fonts (w_env w).

(** The statements of [renderChart] ahead of the [global.Image] binding:
    the surface, and the configuration's two flags. *)
Definition renderChart_prelude (C : collaborators) (this : ChartJSNodeCanvas)
    (configuration : value) : M surface :=
  let! canvas0 := lift_ext (Canvas_new C (_width this) (_height this)) in
  let! style := (if to_boolean (s_style canvas0) then ret (s_style canvas0) else new_object) in
  let canvas1 := {| s_width := s_width canvas0; s_height := s_height canvas0;
                    s_style := style; s_pixels := s_pixels canvas0 |} in
  let! o := get_prop configuration "options" in
  let! o' := (if to_boolean o then ret o else new_object) in
  set_prop configuration "options" o' ;;
  let! o1 := get_prop configuration "options" in
  set_prop o1 "responsive" (VBool false) ;;
  let! o2 := get_prop configuration "options" in
  set_prop o2 "animation" (VBool false) ;;
  ret canvas1.


(** ** A sample process *)

Module Sample.

Definition blank_ctx : context2d :=
{| cur := {| fillStyle := VString "#000"; attributes := ∅ |};
   saved := []; painted := []; calls := [] |}.

(** The first dataset of a configuration, [configuration.data.datasets[0]]. *)
Definition first_dataset (h : gmap loc object) (cfg : value) : value :=
field h (field h (field h cfg "data") "datasets") "0".

(** Function 5 is a callback that throws, any other returns undefined.  The
    engine paints line charts; as chart.js does, it looks a controller up for
    each dataset, so it throws on another chart type when there is a dataset
    to draw and paints nothing when there is none.  The provider refuses a
    canvas wider than 32767 pixels. *)
Definition collab : collaborators :=
{| call_fn := fun f _ _ e =>
     if Nat.eqb f 5 then (ExtThrow (VString "callback failed"), e)
     else (ExtOk VUndefined, e);
   lib_Image := VRef 0;
   String_toLowerCase := ascii_lower;
   Chart_fn := 7;
   Chart_builtins :=
     [ COther (VString "LineController"); COther (VString "LineElement");
       COther (VString "PointElement"); COther (VString "LinearScale");
       COther (VString "CategoryScale"); COther (VString "Legend") ];
   Canvas_new := fun w h =>
     match w with
     | VNumber (S754_finite false m 0) =>
         if (32767 <? Z.pos m)%Z then ExtThrow (VString "Failed to create canvas")
         else ExtOk {| s_width := w; s_height := h; s_style := VUndefined; s_pixels := [] |}
     | _ => ExtOk {| s_width := w; s_height := h; s_style := VUndefined; s_pixels := [] |}
     end;
   Chart_new := fun _ cv cfg e =>
     match field (heap e) cfg "type", first_dataset (heap e) cfg with
     | VString "line", _ =>
         (ExtOk {| chart_id := 1; canvas := Some cv; ctx := blank_ctx |}, e)
     | _, VRef _ => (ExtThrow (VString "not a registered controller"), e)
     | _, _ =>
         (ExtOk {| chart_id := 1; canvas := Some cv; ctx := blank_ctx |}, e)
     end;
   encode_async := fun _ cv _ => Resolved (s_pixels cv);
   encode_sync := fun _ cv _ => ExtOk (s_pixels cv);
   toDataURL_callback := fun _ _ => ExtOk (VNull, VString "data:image/png;base64,");
   toDataURL_sync := fun _ _ => ExtOk (VString "data:image/png;base64,") |}.

(** The same, with an engine whose charts have no canvas. *)
Definition collab_no_canvas : collaborators :=
{| call_fn := call_fn collab;
   lib_Image := lib_Image collab;
   String_toLowerCase := String_toLowerCase collab;
   Chart_fn := Chart_fn collab;
   Chart_builtins := Chart_builtins collab;
   Canvas_new := Canvas_new collab;
   Chart_new := fun _ _ _ e =>
     (ExtOk {| chart_id := 1; canvas := None; ctx := blank_ctx |}, e);
   encode_async := encode_async collab;
   encode_sync := encode_sync collab;
   toDataURL_callback := toDataURL_callback collab;
   toDataURL_sync := toDataURL_sync collab |}.



Definition obj (l : list (string * value)) : object :=
{| props := list_to_map l; callee := None |}.

Definition fn (f : fn_id) : object := {| props := ∅; callee := Some f |}.

Definition heap0 : gmap loc object :=
list_to_map
  [ (0, fn 9)                                                   (* Image *)
  ; (1, obj [("width", num 400); ("height", num 300)])
  ; (2, obj [("type", VString "line")])
  ; (3, obj [("type", VString "nope")])
  ; (4, obj [("width", num (-1)); ("height", num 100)])
  ; (5, fn 5)                                                   (* throws *)
  ; (6, obj [("width", num 400); ("height", num 300); ("chartCallback", VRef 5)])
  ; (7, obj [("width", num 400); ("height", num 300);
             ("backgroundColour", VString "red")])
  ; (8, obj [("family", VString "Comic Sans"); ("weight", VString "bold")])
  ; (9, fn 6)                                                   (* returns *)
  ; (10, obj [("width", num 400); ("height", num 300); ("chartCallback", VRef 9)])
  ; (11, obj [("type", VString "line"); ("options", VRef 12); ("data", VRef 13)])
  ; (12, obj [("responsive", VBool true); ("plugins", VRef 13)])
  ; (13, obj [])
  ; (14, fn 7) ].                                               (* Chart *)

Definition env0 : env :=
{| heap := heap0; global_Image := None; require_cache := ∅;
   registered := {[ 14 := Chart_builtins collab ]}; fonts := [] |}.

Definition world0 : world := {| w_env := env0; w_log := [] |}.

(** A process in which chart.js is already loaded. *)
Definition world_cached : world :=
{| w_env := set_require_cache {[ "chart.js" := 14 ]} env0; w_log := [] |}.

Definition facade : ChartJSNodeCanvas :=
{| _width := num 400; _height := num 300; _image := VRef 0;
   _type := VUndefined; _chartJs := VRef 14 |}.

(** The process with one more configuration, object 16:
    [{type: 'nope', data: {datasets: [{data: [1]}]}}]. *)
Definition heap_datasets : gmap loc object :=
<[16 := obj [("type", VString "nope"); ("data", VRef 17)]]>
  (<[17 := obj [("datasets", VRef 18)]]>
     (<[18 := obj [("length", num 1); ("0", VRef 19)]]>
        (<[19 := obj [("data", VRef 20)]]>
           (<[20 := obj [("length", num 1); ("0", num 1)]]> heap0)))).

Definition world_datasets : world :=
{| w_env := set_heap heap_datasets env0; w_log := [] |}.


End Sample.

(** ** Vocabulary of the further properties *)



(** What a call threw, if it threw. *)
Definition thrown {A} (r : completion A) : option js_error :=
match r with
| Thrown e => Some e
| Returned _ => None
end.

Definition outcome {A} (r : completion A * world) : option js_error * world :=
(thrown (fst r), snd r).

(** The six buffer methods, and the eight render methods, of the three
    copies, run on one input. *)
Definition buffer_calls (C : collaborators) (this : ChartJSNodeCanvas)
    (configuration : value) (w : world) : list (option js_error * world) :=
[ outcome (IndexTs.renderToBuffer C this configuration w);
  outcome (IndexTs.renderToBufferSync C this configuration w);
  outcome (Part000.renderToBuffer C this configuration w);
  outcome (Part000.renderToBufferSync C this configuration w);
  outcome (Part001.renderToBuffer C this configuration w);
  outcome (Part001.renderToBufferSync C this configuration w) ].

Definition render_calls (C : collaborators) (this : ChartJSNodeCanvas)
    (configuration mimeType : value) (w : world) : list (option js_error * world) :=
buffer_calls C this configuration w ++
[ outcome (Part001.renderToDataURL C this configuration mimeType w);
  outcome (Part001.renderToDataURLSync C this configuration mimeType w) ].

(** The destroy events of a log. *)
Definition destroyed (evs : list event) : list event := filter is_destroy evs.

Module Scenes.

(** A process in which the caller has an [Image] global of their own. *)
Definition world_with_Image : world :=
{| w_env := set_global_Image (Some (VString "the caller's Image")) Sample.env0;
   w_log := [] |}.


End Scenes.

Module Instances.

Definition no_chart : chart :=
{| chart_id := 0; canvas := None; ctx := Sample.blank_ctx |}.

(** The chart the sample engine builds for the sample line chart. *)
Definition line_chart : chart :=
match fst (renderChart Sample.collab Sample.facade (VRef 2) Sample.world0) with
| Returned c => c
| Thrown _ => no_chart
end.

(** The surface [renderChart] prepares for it. *)
Definition line_surface : surface :=
match fst (renderChart_prelude Sample.collab Sample.facade (VRef 2) Sample.world0) with
| Returned cv => cv
| Thrown _ =>
    {| s_width := VUndefined; s_height := VUndefined; s_style := VUndefined;
       s_pixels := [] |}
end.

End Instances.

(** * Properties *)

(** ** The monad *)

Lemma bind_returned {A B} (m : M A) (k : A -> M B) w a w' :
  m w = (Returned a, w') -> bind m k w = k a w'.
Proof. intros H. unfold bind. now rewrite H. Qed.

(** ** The background plugin *)

(** C6: on beforeDraw the plugin calls, in this order and nothing else, save,
    the fill style setter with its captured fill, fillRect from (0,0) with
    its captured width and height, and restore; the drawing state and the
    stack of saved states are afterwards what they were before, and one
    rectangle has been painted. *)
Theorem beforeDraw_save_fill_restore (style_ok : value -> bool)
    (p : BackgroundColourPlugin.t) (c : chart) :
  let c' := BackgroundColourPlugin.beforeDraw style_ok p c in
  calls (ctx c') =
    calls (ctx c) ++
      [ CSave;
        CSetFillStyle (BackgroundColourPlugin._fillStyle p);
        CFillRect (num 0) (num 0) (BackgroundColourPlugin._width p)
                  (BackgroundColourPlugin._height p);
        CRestore ]
  /\ cur (ctx c') = cur (ctx c)
  /\ saved (ctx c') = saved (ctx c)
  /\ painted (ctx c') =
       painted (ctx c) ++
         [ (if style_ok (BackgroundColourPlugin._fillStyle p)
            then BackgroundColourPlugin._fillStyle p
            else fillStyle (cur (ctx c)),
            (num 0, num 0, BackgroundColourPlugin._width p,
             BackgroundColourPlugin._height p)) ]
  /\ chart_id c' = chart_id c /\ canvas c' = canvas c.
Proof.
  unfold BackgroundColourPlugin.beforeDraw, Context2D.restore, Context2D.fillRect,
    Context2D.set_fillStyle, Context2D.save, Context2D.called.
  destruct (style_ok (BackgroundColourPlugin._fillStyle p)); simpl;
    rewrite <- ?app_assoc; simpl; repeat split; reflexivity.
Qed.

(** ** The heap *)






Lemma fresh_unallocated (h : gmap loc object) : h !! fresh (dom h) = None.
Proof. apply not_elem_of_dom, is_fresh. Qed.

(** Allocating an empty object shows in the domain only. *)
Lemma obj_at_alloc h l l' : h !! l = None -> obj_at (<[l := empty_object]> h) l' = obj_at h l'.
Proof.
  intros Hl. unfold obj_at. destruct (decide (l = l')) as [->|Hne].
  - now rewrite lookup_insert_eq, Hl.
  - now rewrite lookup_insert_ne.
Qed.


(** ** Computations on the heap alone *)

Lemma heap_only_ret {A} (a : A) : heap_only (ret a).
Proof. intros w. simpl. repeat split; auto. Qed.

Lemma heap_only_bind {A B} (m : M A) (k : A -> M B) :
  heap_only m -> (forall a, heap_only (k a)) -> heap_only (bind m k).
Proof.
  intros Hm Hk w. unfold bind. specialize (Hm w).
  destruct (m w) as [[a|e] w1]; simpl in *.
  - destruct Hm as (H1 & H2 & H3 & H4 & H5).
    destruct (Hk a w1) as (K1 & K2 & K3 & K4 & K5).
    repeat split; congruence.
  - exact Hm.
Qed.

Lemma heap_only_lift_ext {A} (r : ext_result A) : heap_only (lift_ext r).
Proof. intros w. destruct r; simpl; repeat split. Qed.

Lemma bind_lift_ok {A B} (a : A) (k : A -> M B) w :
  bind (lift_ext (ExtOk a)) k w = k a w.
Proof. reflexivity. Qed.

Lemma bind_lift_throw {A B} (v : value) (k : A -> M B) w :
  bind (lift_ext (ExtThrow v)) k w = (Thrown (Foreign v), w).
Proof. reflexivity. Qed.

Lemma heap_only_get_prop v k : heap_only (get_prop v k).
Proof. intros w. destruct v; simpl; repeat split; eauto. Qed.

Lemma heap_only_set_prop v k x : heap_only (set_prop v k x).
Proof. intros w. destruct v; simpl; repeat split; eauto. Qed.

Lemma heap_only_new_object : heap_only new_object.
Proof. intros w. simpl. repeat split; auto. Qed.

(** ** renderChart *)

Section RenderChart.
Variable C : collaborators.
Variable this : ChartJSNodeCanvas.

(** [renderChart] is its prelude followed by the bracket around the chart
    constructor: bind [global.Image], construct, delete [global.Image]. *)
Lemma renderChart_bracket configuration w :
  renderChart C this configuration w =
    match renderChart_prelude C this configuration w with
    | (Returned cv, w1) =>
        match Chart_new C (_chartJs this) cv configuration
                (set_global_Image (Some (_image this)) (w_env w1)) with
        | (ExtOk c, e2) =>
            (Returned c, {| w_env := set_global_Image None e2; w_log := w_log w1 |})
        | (ExtThrow v, e2) =>
            (Thrown (Foreign v), {| w_env := e2; w_log := w_log w1 |})
        end
    | (Thrown e, w1) => (Thrown e, w1)
    end.
Proof.
  unfold renderChart, renderChart_prelude.
  destruct (Canvas_new C (_width this) (_height this)) as [cv0|v0];
    [|now rewrite !bind_lift_throw].
  rewrite !bind_lift_ok.
  unfold bind.
  destruct ((if to_boolean (s_style cv0) then ret (s_style cv0) else new_object) w)
    as [[style|e] w1]; [|reflexivity].
  destruct (get_prop configuration "options" w1) as [[o|e] w2]; [|reflexivity].
  destruct ((if to_boolean o then ret o else new_object) w2) as [[o'|e] w3]; [|reflexivity].
  destruct (set_prop configuration "options" o' w3) as [[[]|e] w4]; [|reflexivity].
  destruct (get_prop configuration "options" w4) as [[o1|e] w5]; [|reflexivity].
  destruct (set_prop o1 "responsive" (VBool false) w5) as [[[]|e] w6]; [|reflexivity].
  destruct (get_prop configuration "options" w6) as [[o2|e] w7]; [|reflexivity].
  destruct (set_prop o2 "animation" (VBool false) w7) as [[[]|e] w8]; [|reflexivity].
  unfold modify_env, call_ext, ret. simpl.
  destruct (Chart_new C (_chartJs this) _ configuration _) as [[c|v] e2]; reflexivity.
Qed.

(** The prelude only touches the heap. *)
Lemma prelude_heap_only configuration :
  heap_only (renderChart_prelude C this configuration).
Proof.
  unfold renderChart_prelude.
  repeat first
    [ apply heap_only_bind; [|intros ?]
    | apply heap_only_lift_ext
    | apply heap_only_ret
    | apply heap_only_get_prop
    | apply heap_only_set_prop
    | apply heap_only_new_object
    | match goal with |- heap_only (if ?b then _ else _) => destruct b end ].
Qed.
End RenderChart.

Section RenderChartFacts.
Variable C : collaborators.
Variable this : ChartJSNodeCanvas.

Lemma renderChart_log configuration w :
  w_log (snd (renderChart C this configuration w)) = w_log w.
Proof.
  rewrite renderChart_bracket.
  destruct (prelude_heap_only C this configuration w) as (Hlog & _).
  destruct (renderChart_prelude C this configuration w) as [[cv|e] w1]; simpl in *;
    [|exact Hlog].
  destruct (Chart_new C _ cv configuration _) as [[c|v] e2]; exact Hlog.
Qed.

(** When the chart constructor returns, the facade has deleted
    [global.Image]. *)
Lemma renderChart_returned_clears configuration w c w' :
  renderChart C this configuration w = (Returned c, w') ->
  global_Image (w_env w') = None.
Proof.
  rewrite renderChart_bracket.
  destruct (renderChart_prelude C this configuration w) as [[cv|e] w1]; [|discriminate].
  destruct (Chart_new C _ cv configuration _) as [[c'|v] e2]; [|discriminate].
  intros [= <- <-]. reflexivity.
Qed.

(** When the chart constructor throws, the facade does nothing more: the
    environment is as the constructor left it, the binding included. *)
Lemma renderChart_thrown_keeps configuration w cv w1 v e2 :
  renderChart_prelude C this configuration w = (Returned cv, w1) ->
  Chart_new C (_chartJs this) cv configuration
    (set_global_Image (Some (_image this)) (w_env w1)) = (ExtThrow v, e2) ->
  renderChart C this configuration w =
    (Thrown (Foreign v), {| w_env := e2; w_log := w_log w |}).
Proof.
  intros Hp Hc. rewrite renderChart_bracket, Hp, Hc.
  destruct (prelude_heap_only C this configuration w) as (Hlog & _).
  rewrite Hp in Hlog. simpl in Hlog. now rewrite Hlog.
Qed.

(** What a buffer method appends to the log and returns, by the outcome of
    [renderChart]; [api] and [format] are the copy's encoder and literal. *)
Lemma buffer_async_events (api : encoder) (format : value) configuration w :
  let m := (let! chart := renderChart C this configuration in
            match canvas chart with
            | None => throw (JsTypeError "Cannot read properties of undefined or null")
            | Some cv => log (EEncode api format) ;; ret (encode_async C api cv format)
            end) in
  match renderChart C this configuration w with
  | (Returned c, _) =>
      match canvas c with
      | Some cv => appended m w [EEncode api format]
                   /\ fst (m w) = Returned (encode_async C api cv format)
      | None => appended m w []
      end
  | (Thrown e, _) => appended m w [] /\ fst (m w) = Thrown e
  end.
Proof.
  unfold appended, bind. pose proof (renderChart_log configuration w) as Hlog.
  destruct (renderChart C this configuration w) as [[c|e] w1]; simpl in *.
  - destruct (canvas c); simpl; rewrite Hlog, ?app_nil_r; auto.
  - rewrite Hlog, app_nil_r; auto.
Qed.

Lemma buffer_sync_events (api : encoder) (format : value) configuration w :
  let m := (let! chart := renderChart C this configuration in
            match canvas chart with
            | None => throw (JsTypeError "Cannot read properties of undefined or null")
            | Some cv =>
                log (EEncode api format) ;;
                match encode_sync C api cv format with
                | ExtOk b => ret b
                | ExtThrow v => throw (Foreign v)
                end
            end) in
  match renderChart C this configuration w with
  | (Returned c, _) =>
      match canvas c with
      | Some cv => appended m w [EEncode api format]
                   /\ fst (m w) = match encode_sync C api cv format with
                                  | ExtOk b => Returned b
                                  | ExtThrow v => Thrown (Foreign v)
                                  end
      | None => appended m w []
      end
  | (Thrown e, _) => appended m w [] /\ fst (m w) = Thrown e
  end.
Proof.
  unfold appended, bind. pose proof (renderChart_log configuration w) as Hlog.
  destruct (renderChart C this configuration w) as [[c|e] w1]; simpl in *.
  - destruct (canvas c) as [cv|]; simpl; [|rewrite Hlog, app_nil_r; auto].
    destruct (encode_sync C api cv format); simpl; rewrite Hlog; auto.
  - rewrite Hlog, app_nil_r; auto.
Qed.

(** C10: the two buffer methods ask the surface for PNG whatever the facade
    and the configuration are. In each copy, when [renderChart] returns a
    chart with a canvas, the one encoder call made has the literal format
    ['png'] (['image/png'] for the blocking call of [src/index.ts]) and its
    result is the method's result; otherwise no encoder is called. *)
Theorem buffer_methods_always_png configuration w :
  png_format (VString "png") = true /\ png_format (VString "image/png") = true /\
  match renderChart C this configuration w with
  | (Returned c, _) =>
      match canvas c with
      | Some cv =>
          (appended (IndexTs.renderToBuffer C this configuration) w
             [EEncode NapiEncode (VString "png")]
           /\ fst (IndexTs.renderToBuffer C this configuration w) =
                Returned (encode_async C NapiEncode cv (VString "png")))
          /\ (appended (IndexTs.renderToBufferSync C this configuration) w
                [EEncode NapiToBuffer (VString "image/png")]
              /\ fst (IndexTs.renderToBufferSync C this configuration w) =
                   match encode_sync C NapiToBuffer cv (VString "image/png") with
                   | ExtOk b => Returned b
                   | ExtThrow v => Thrown (Foreign v)
                   end)
          /\ (appended (Part000.renderToBuffer C this configuration) w
                [EEncode SkiaToBuffer (VString "png")]
              /\ fst (Part000.renderToBuffer C this configuration w) =
                   Returned (encode_async C SkiaToBuffer cv (VString "png")))
          /\ (appended (Part000.renderToBufferSync C this configuration) w
                [EEncode SkiaToBufferSync (VString "png")]
              /\ fst (Part000.renderToBufferSync C this configuration w) =
                   match encode_sync C SkiaToBufferSync cv (VString "png") with
                   | ExtOk b => Returned b
                   | ExtThrow v => Thrown (Foreign v)
                   end)
          /\ (appended (Part001.renderToBuffer C this configuration) w
                [EEncode SkiaToBuffer (VString "png")]
              /\ fst (Part001.renderToBuffer C this configuration w) =
                   Returned (encode_async C SkiaToBuffer cv (VString "png")))
          /\ (appended (Part001.renderToBufferSync C this configuration) w
                [EEncode SkiaToBufferSync (VString "png")]
              /\ fst (Part001.renderToBufferSync C this configuration w) =
                   match encode_sync C SkiaToBufferSync cv (VString "png") with
                   | ExtOk b => Returned b
                   | ExtThrow v => Thrown (Foreign v)
                   end)
      | None =>
          appended (IndexTs.renderToBuffer C this configuration) w []
          /\ appended (IndexTs.renderToBufferSync C this configuration) w []
          /\ appended (Part000.renderToBuffer C this configuration) w []
          /\ appended (Part000.renderToBufferSync C this configuration) w []
          /\ appended (Part001.renderToBuffer C this configuration) w []
          /\ appended (Part001.renderToBufferSync C this configuration) w []
      end
  | (Thrown e, _) =>
      appended (IndexTs.renderToBuffer C this configuration) w []
      /\ appended (IndexTs.renderToBufferSync C this configuration) w []
      /\ appended (Part000.renderToBuffer C this configuration) w []
      /\ appended (Part000.renderToBufferSync C this configuration) w []
      /\ appended (Part001.renderToBuffer C this configuration) w []
      /\ appended (Part001.renderToBufferSync C this configuration) w []
  end.
Proof.
  split; [reflexivity|]. split; [reflexivity|].
  pose proof (buffer_async_events NapiEncode (VString "png") configuration w) as A1.
  pose proof (buffer_sync_events NapiToBuffer (VString "image/png") configuration w) as A2.
  pose proof (buffer_async_events SkiaToBuffer (VString "png") configuration w) as A3.
  pose proof (buffer_sync_events SkiaToBufferSync (VString "png") configuration w) as A4.
  cbv zeta in A1, A2, A3, A4.
  destruct (renderChart C this configuration w) as [[c|e] w1].
  - destruct (canvas c) as [cv|]; repeat split;
      solve [apply A1 | apply A2 | apply A3 | apply A4].
  - repeat split; solve [apply A1 | apply A2 | apply A3 | apply A4].
Qed.

(** C8, as the code has it: the buffer methods of the three copies never
    call [chart.destroy()]; the log gains no destroy event, also when the
    chart was constructed and encoded. *)
Theorem buffer_methods_never_destroy configuration w :
  filter is_destroy (w_log (snd (IndexTs.renderToBuffer C this configuration w)))
    = filter is_destroy (w_log w)
  /\ filter is_destroy (w_log (snd (IndexTs.renderToBufferSync C this configuration w)))
    = filter is_destroy (w_log w)
  /\ filter is_destroy (w_log (snd (Part000.renderToBuffer C this configuration w)))
    = filter is_destroy (w_log w)
  /\ filter is_destroy (w_log (snd (Part000.renderToBufferSync C this configuration w)))
    = filter is_destroy (w_log w)
  /\ filter is_destroy (w_log (snd (Part001.renderToBuffer C this configuration w)))
    = filter is_destroy (w_log w)
  /\ filter is_destroy (w_log (snd (Part001.renderToBufferSync C this configuration w)))
    = filter is_destroy (w_log w).
Proof.
  pose proof (buffer_async_events NapiEncode (VString "png") configuration w) as A1.
  pose proof (buffer_sync_events NapiToBuffer (VString "image/png") configuration w) as A2.
  pose proof (buffer_async_events SkiaToBuffer (VString "png") configuration w) as A3.
  pose proof (buffer_sync_events SkiaToBufferSync (VString "png") configuration w) as A4.
  cbv zeta in A1, A2, A3, A4. unfold appended in *.
  assert (Hf : forall (l : list event) api format,
             filter is_destroy (l ++ [EEncode api format]) = filter is_destroy l).
  { intros l api format. rewrite filter_app. simpl. now rewrite app_nil_r. }
  destruct (renderChart C this configuration w) as [[c|e] w1].
  - destruct (canvas c) as [cv|].
    + destruct A1 as [A1 _], A2 as [A2 _], A3 as [A3 _], A4 as [A4 _].
      repeat split;
        first [ etransitivity; [apply f_equal; apply A1|]
              | etransitivity; [apply f_equal; apply A2|]
              | etransitivity; [apply f_equal; apply A3|]
              | etransitivity; [apply f_equal; apply A4|] ]; apply Hf.
    + rewrite app_nil_r in A1, A2, A3, A4.
      repeat split; apply f_equal; solve [apply A1 | apply A2 | apply A3 | apply A4].
  - destruct A1 as [A1 _], A2 as [A2 _], A3 as [A3 _], A4 as [A4 _].
    rewrite app_nil_r in A1, A2, A3, A4.
    repeat split; apply f_equal; solve [apply A1 | apply A2 | apply A3 | apply A4].
Qed.
End RenderChartFacts.

(** ** What the render methods do to the environment *)

Lemma bind_env {A B} (m : M A) (k : A -> M B) w :
  (forall a w', w_env (snd (k a w')) = w_env w') ->
  w_env (snd (bind m k w)) = w_env (snd (m w)).
Proof.
  intros Hk. unfold bind. destruct (m w) as [[a|e] w1]; simpl; [apply Hk|reflexivity].
Qed.

Ltac after_renderChart :=
  apply bind_env; intros c w';
  destruct (canvas c) as [cv|]; simpl; try reflexivity;
  repeat match goal with
         | |- context [match ?x with ExtOk _ => _ | ExtThrow _ => _ end] => destruct x; simpl
         | |- context [let (_, _) := ?x in _] => destruct x; simpl
         | |- context [if ?b then _ else _] => destruct b; simpl
         end; reflexivity.

(** After [renderChart] the methods only call the encoder and, in the
    data-URL methods, [chart.destroy()]: the environment stays as
    [renderChart] left it. *)
Lemma render_methods_env C this configuration mimeType w :
  let e := w_env (snd (renderChart C this configuration w)) in
  w_env (snd (IndexTs.renderToBuffer C this configuration w)) = e
  /\ w_env (snd (IndexTs.renderToBufferSync C this configuration w)) = e
  /\ w_env (snd (Part000.renderToBuffer C this configuration w)) = e
  /\ w_env (snd (Part000.renderToBufferSync C this configuration w)) = e
  /\ w_env (snd (Part001.renderToBuffer C this configuration w)) = e
  /\ w_env (snd (Part001.renderToBufferSync C this configuration w)) = e
  /\ w_env (snd (Part001.renderToDataURL C this configuration mimeType w)) = e
  /\ w_env (snd (Part001.renderToDataURLSync C this configuration mimeType w)) = e.
Proof.
  cbv zeta.
  unfold IndexTs.renderToBuffer, IndexTs.renderToBufferSync, Part000.renderToBuffer,
    Part000.renderToBufferSync, Part001.renderToBuffer, Part001.renderToBufferSync,
    Part001.renderToDataURL, Part001.renderToDataURLSync.
  repeat split; after_renderChart.
Qed.

(** ** The two forced fields *)





(** ** The data-URL methods of [part_001] *)


(** The data-URL methods, by contrast, do destroy the chart they
    constructed: when the encoder has delivered, [chart.destroy()] has been
    called after the encoder call and before the result is returned. *)
Lemma dataURL_methods_destroy C this configuration mimeType w c w1 cv :
  renderChart C this configuration w = (Returned c, w1) ->
  canvas c = Some cv ->
  let mime := Part001.default_mimeType mimeType in
  (forall error png, toDataURL_callback C cv mime = ExtOk (error, png) ->
     appended (Part001.renderToDataURL C this configuration mimeType) w
       [EEncode ToDataURLCallback mime; EDestroy (chart_id c)])
  /\ (forall dataUrl, toDataURL_sync C cv mime = ExtOk dataUrl ->
        appended (Part001.renderToDataURLSync C this configuration mimeType) w
          [EEncode ToDataURL mime; EDestroy (chart_id c)]).
Proof.
  intros Hr Hc. cbv zeta. unfold appended.
  pose proof (renderChart_log C this configuration w) as Hlog.
  unfold Part001.renderToDataURL, Part001.renderToDataURLSync.
  rewrite !(bind_returned _ _ _ _ _ Hr). rewrite Hr in Hlog. simpl in Hlog.
  rewrite Hc. split.
  - intros error png He. unfold bind, log, Chart_destroy, ret; simpl. rewrite He. simpl.
    destruct (to_boolean error); simpl; rewrite Hlog, <- app_assoc; reflexivity.
  - intros dataUrl He. unfold bind, log, Chart_destroy, ret; simpl. rewrite He. simpl.
    rewrite Hlog, <- app_assoc; reflexivity.
Qed.

(** ** The constructor *)

Lemma object_check h v :
  is_null v || negb (String.eqb (typeof h v) "object") = negb (is_object h v).
Proof.
  destruct v as [| |b|f|s|l]; simpl; try reflexivity.
  destruct (callee (obj_at h l)); reflexivity.
Qed.

Lemma dimension_check h v :
  negb (to_boolean v) || negb (String.eqb (typeof h v) "number") = negb (nonzero_number v).
Proof.
  destruct v as [| |b|f|s|l]; simpl; try reflexivity.
  - now destruct b.
  - now destruct f.
  - now destruct (negb (String.eqb s "")).
  - destruct (callee (obj_at h l)); reflexivity.
Qed.

Lemma is_object_ref h v : is_object h v = true -> exists l, v = VRef l.
Proof. destruct v; simpl; try discriminate. eauto. Qed.

Lemma get_prop_ref l k w :
  get_prop (VRef l) k w = (Returned (field (heap (w_env w)) (VRef l) k), w).
Proof. reflexivity. Qed.

Lemma raises_no_Error_ret {A} (a : A) : raises_no_Error (ret a).
Proof. intros w msg. discriminate. Qed.

Lemma raises_no_Error_bind {A B} (m : M A) (k : A -> M B) :
  raises_no_Error m -> (forall a, raises_no_Error (k a)) -> raises_no_Error (bind m k).
Proof.
  intros Hm Hk w msg. unfold bind. specialize (Hm w msg).
  destruct (m w) as [[a|e] w1]; simpl in *; [apply Hk|].
  intros [= ->]. now apply Hm.
Qed.

Lemma raises_no_Error_get_prop v k : raises_no_Error (get_prop v k).
Proof. intros w msg. destruct v; discriminate. Qed.

Lemma raises_no_Error_log ev : raises_no_Error (log ev).
Proof. intros w msg. discriminate. Qed.

Lemma raises_no_Error_modify f : raises_no_Error (modify_env f).
Proof. intros w msg. discriminate. Qed.

Lemma raises_no_Error_call_ext {A} (f : env -> ext_result A * env) :
  raises_no_Error (call_ext f).
Proof.
  intros w msg. unfold call_ext. destruct (f (w_env w)) as [[a|v] e]; discriminate.
Qed.

Lemma raises_no_Error_call_value C f this args : raises_no_Error (call_value C f this args).
Proof.
  destruct f as [| |b|x|s|l]; try (intros w msg; discriminate).
  intros w msg. simpl. destruct (callee (obj_at (heap (w_env w)) l)); [|discriminate].
  apply (raises_no_Error_bind (log _) (fun _ => call_ext _)).
  - apply raises_no_Error_log.
  - intros _. apply raises_no_Error_call_ext.
Qed.

Lemma raises_no_Error_toLowerCase C v : raises_no_Error (method_toLowerCase C v).
Proof.
  destruct v as [| |b|x|s|l]; try (intros w msg; discriminate).
  apply raises_no_Error_bind; [apply raises_no_Error_get_prop|].
  intros f. apply raises_no_Error_call_value.
Qed.

Lemma raises_no_Error_require C name : raises_no_Error (require C name).
Proof.
  intros w msg. unfold require. destruct (require_cache (w_env w) !! name); discriminate.
Qed.

Lemma raises_no_Error_evict name : raises_no_Error (evict name).
Proof.
  apply raises_no_Error_bind; [apply raises_no_Error_modify|].
  intros _. apply raises_no_Error_log.
Qed.

Lemma raises_no_Error_register m c : raises_no_Error (Chart_register m c).
Proof.
  destruct m; intros w msg; discriminate.
Qed.

Ltac no_Error :=
  repeat first
    [ apply raises_no_Error_bind; [|intros ?]
    | apply raises_no_Error_ret
    | apply raises_no_Error_get_prop
    | apply raises_no_Error_require
    | apply raises_no_Error_evict
    | apply raises_no_Error_register
    | apply raises_no_Error_call_value
    | apply raises_no_Error_toLowerCase
    | match goal with |- raises_no_Error (if ?b then _ else _) => destruct b end ].

Lemma raises_no_Error_initialize C options :
  raises_no_Error (IndexTs.initialize C options)
  /\ raises_no_Error (Part000.initialize C options)
  /\ raises_no_Error (Part001.initialize C options).
Proof.
  unfold IndexTs.initialize, Part000.initialize, Part001.initialize.
  repeat split; no_Error.
Qed.

(** The constructor's three checks amount to [rejected]: it throws its own
    error, having done nothing, exactly on rejected options; on the others it
    goes on to store the fields and initialize. *)
Lemma constructor_checks C initialize options w :
  let h := heap (w_env w) in
  exists msg,
    constructor_ C initialize options w =
      if rejected h options then (Thrown (JsError msg), w)
      else
        (let! type := (if to_boolean (field h options "type")
                       then method_toLowerCase C (field h options "type")
                       else ret (field h options "type")) in
         let! chartJs := initialize options in
         ret {| _width := field h options "width"; _height := field h options "height";
                _image := lib_Image C; _type := type; _chartJs := chartJs |}) w.
Proof.
  cbv zeta. unfold rejected, constructor_.
  unfold bind at 1. unfold get_env at 1. cbv beta iota.
  rewrite object_check.
  destruct (is_object (heap (w_env w)) options) eqn:Hobj; cbn [negb orb]; cbv beta iota;
    [|simpl; eauto].
  destruct (is_object_ref _ _ Hobj) as [l ->].
  unfold bind at 1. rewrite get_prop_ref. cbv beta iota. rewrite dimension_check.
  destruct (nonzero_number (field (heap (w_env w)) (VRef l) "width")); cbn [negb orb];
    cbv beta iota; [|simpl; eauto].
  unfold bind at 1. rewrite get_prop_ref. cbv beta iota. rewrite dimension_check.
  destruct (nonzero_number (field (heap (w_env w)) (VRef l) "height")); cbn [negb orb];
    cbv beta iota; [|simpl; eauto].
  exists "".
  unfold bind at 1. rewrite get_prop_ref. cbv beta iota.
  unfold bind at 1. rewrite get_prop_ref. cbv beta iota.
  unfold bind at 1. rewrite get_prop_ref. cbv beta iota.
  destruct (to_boolean (field (heap (w_env w)) (VRef l) "type")); [|reflexivity].
  unfold bind. rewrite get_prop_ref. reflexivity.
Qed.

(** ** initialize *)

Lemma bind_assoc {A B D} (m : M A) (f : A -> M B) (g : B -> M D) w :
  bind (bind m f) g w = bind m (fun x => bind (f x) g) w.
Proof.
  unfold bind. destruct (m w) as [[a|e] w1]; [|reflexivity].
  destruct (f a w1) as [[b|e] w2]; reflexivity.
Qed.

Lemma bind_thrown {A B} (m : M A) (k : A -> M B) w e w' :
  m w = (Thrown e, w') -> bind m k w = (Thrown e, w').
Proof. intros H. unfold bind. now rewrite H. Qed.

(** [require] returns the cached module, or a new one, and logs it. *)
Lemma require_returns C name w :
  let l := module_loc (w_env w) name in
  require C name w = (Returned (VRef l), snd (require C name w))
  /\ w_log (snd (require C name w)) = w_log w ++ [ERequire name (VRef l)].
Proof.
  cbv zeta. unfold require, module_loc.
  destruct (require_cache (w_env w) !! name); split; reflexivity.
Qed.

(** Loading chart.js when it is not cached: a new object, the [Chart]
    class with its built-in components registered, now cached. *)
Lemma require_uncached C w :
  require_cache (w_env w) !! "chart.js" = None ->
  let l := fresh (dom (heap (w_env w))) in
  require C "chart.js" w =
    (Returned (VRef l),
     {| w_env :=
          set_require_cache (<["chart.js" := l]> (require_cache (w_env w)))
            (set_registered (<[l := Chart_builtins C]> (registered (w_env w)))
               (set_heap (<[l := {| props := ∅; callee := Some (Chart_fn C) |}]>
                            (heap (w_env w))) (w_env w)));
        w_log := w_log w ++ [ERequire "chart.js" (VRef l)] |}).
Proof. intros Hc. unfold require. rewrite Hc. reflexivity. Qed.

(** When it is cached, nothing is loaded. *)
Lemma require_cached C name w l :
  require_cache (w_env w) !! name = Some l ->
  require C name w =
    (Returned (VRef l), {| w_env := w_env w; w_log := w_log w ++ [ERequire name (VRef l)] |}).
Proof. intros Hc. unfold require. rewrite Hc. reflexivity. Qed.

(** Loading a module leaves the objects that exist as they are. *)
Lemma field_after_require C name w lo k :
  is_Some (heap (w_env w) !! lo) ->
  field (heap (w_env (snd (require C name w)))) (VRef lo) k
  = field (heap (w_env w)) (VRef lo) k.
Proof.
  intros Hlo. unfold require. destruct (require_cache (w_env w) !! name); [reflexivity|].
  simpl. unfold obj_at. rewrite lookup_insert_ne; [reflexivity|].
  intros Heq. pose proof (fresh_unallocated (heap (w_env w))) as Hf.
  rewrite Heq in Hf. rewrite Hf in Hlo. now destruct Hlo.
Qed.

(** The callback step, by what [options.chartCallback] is. *)
Lemma callback_step_absent C lo m wr :
  to_boolean (field (heap (w_env wr)) (VRef lo) "chartCallback") = false ->
  callback_step C (VRef lo) m wr = (Returned tt, wr).
Proof.
  intros Hcb. unfold callback_step. unfold bind at 1. rewrite get_prop_ref, Hcb.
  reflexivity.
Qed.

Lemma callback_step_called C lo m wr f fid :
  field (heap (w_env wr)) (VRef lo) "chartCallback" = VRef f ->
  callee (obj_at (heap (w_env wr)) f) = Some fid ->
  callback_step C (VRef lo) m wr =
    match call_fn C fid (VRef lo) [m] (w_env wr) with
    | (ExtOk _, e4) =>
        (Returned tt, {| w_env := e4; w_log := w_log wr ++ [ECall (VRef f) [m]] |})
    | (ExtThrow v, e4) =>
        (Thrown (Foreign v), {| w_env := e4; w_log := w_log wr ++ [ECall (VRef f) [m]] |})
    end.
Proof.
  intros Hf Hcallee. unfold callback_step.
  unfold bind at 1. rewrite get_prop_ref, Hf. cbn [to_boolean]. cbv beta iota.
  unfold bind at 1. rewrite get_prop_ref, Hf. cbv beta iota.
  unfold bind at 1. unfold call_value. rewrite Hcallee.
  unfold bind at 1. unfold log at 1. cbv beta iota.
  unfold call_ext. cbn [w_env w_log].
  destruct (call_fn C fid (VRef lo) [m] (w_env wr)) as [[r|v] e4]; reflexivity.
Qed.

(** [initialize] is: require, the callback step, then registration (not in
    [part_001]) and eviction. *)
Lemma initialize_by_callback C lo w l wr :
  require C "chart.js" w = (Returned (VRef l), wr) ->
  (forall e wc,
      callback_step C (VRef lo) (VRef l) wr = (Thrown e, wc) ->
      IndexTs.initialize C (VRef lo) w = (Thrown e, wc)
      /\ Part001.initialize C (VRef lo) w = (Thrown e, wc))
  /\ (forall wc,
        callback_step C (VRef lo) (VRef l) wr = (Returned tt, wc) ->
        let p := BackgroundColourPlugin.new (field (heap (w_env wc)) (VRef lo) "width")
                   (field (heap (w_env wc)) (VRef lo) "height") (VString "#fff") in
        IndexTs.initialize C (VRef lo) w =
          (Returned (VRef l),
           {| w_env :=
                set_require_cache (delete "chart.js" (require_cache (w_env wc)))
                  (set_registered
                     (<[l := default [] (registered (w_env wc) !! l) ++ [CBackground p]]>
                        (registered (w_env wc))) (w_env wc));
              w_log := w_log wc ++ [ERegister (VRef l) (CBackground p); EEvict "chart.js"] |})
        /\ Part001.initialize C (VRef lo) w =
             (Returned (VRef l),
              {| w_env := set_require_cache (delete "chart.js" (require_cache (w_env wc)))
                            (w_env wc);
                 w_log := w_log wc ++ [EEvict "chart.js"] |})).
Proof.
  intros Hreq.
  assert (Hsrc : forall k : M value,
             (let! cb := get_prop (VRef lo) "chartCallback" in
              (if to_boolean cb
               then let! cb' := get_prop (VRef lo) "chartCallback" in
                    call_value C cb' (VRef lo) [VRef l] ;; ret tt
               else ret tt) ;; k) wr
             = bind (callback_step C (VRef lo) (VRef l)) (fun _ => k) wr).
  { intros k. unfold callback_step. now rewrite bind_assoc. }
  split.
  - intros e wc Hcb. split.
    + unfold IndexTs.initialize. rewrite (bind_returned _ _ _ _ _ Hreq).
      rewrite Hsrc. now apply bind_thrown.
    + unfold Part001.initialize. rewrite (bind_returned _ _ _ _ _ Hreq).
      rewrite Hsrc. now apply bind_thrown.
  - intros wc Hcb. cbv zeta. split.
    + unfold IndexTs.initialize. rewrite (bind_returned _ _ _ _ _ Hreq).
      rewrite Hsrc. rewrite (bind_returned _ _ _ _ _ Hcb).
      unfold bind, ret, get_prop, Chart_register, evict, modify_env, log. simpl.
      rewrite <- ?app_assoc. reflexivity.
    + unfold Part001.initialize. rewrite (bind_returned _ _ _ _ _ Hreq).
      rewrite Hsrc. rewrite (bind_returned _ _ _ _ _ Hcb).
      unfold bind, ret, evict, modify_env, log. simpl.
      rewrite <- ?app_assoc. reflexivity.
Qed.

Lemma initialize_same_in_part_000 C options w :
  Part000.initialize C options w = IndexTs.initialize C options w.
Proof. reflexivity. Qed.

Lemma bind_ext_l {A B} (m m' : M A) (k : A -> M B) w :
  m w = m' w -> bind m k w = bind m' k w.
Proof. intros H. unfold bind. now rewrite H. Qed.

(** The type expression on an options object. *)
Lemma type_step_ref C lo w :
  let t := field (heap (w_env w)) (VRef lo) "type" in
  type_step C (VRef lo) w = (if to_boolean t then method_toLowerCase C t else ret t) w.
Proof.
  cbv zeta. unfold type_step. unfold bind at 1. rewrite get_prop_ref.
  destruct (to_boolean (field (heap (w_env w)) (VRef lo) "type")); [|reflexivity].
  unfold bind. rewrite get_prop_ref. reflexivity.
Qed.

Lemma type_step_returns C lo w :
  type_option_ok (field (heap (w_env w)) (VRef lo) "type") = true ->
  type_step C (VRef lo) w
  = (Returned (normal_type C (field (heap (w_env w)) (VRef lo) "type")), w).
Proof.
  intros Ht. rewrite type_step_ref.
  destruct (field (heap (w_env w)) (VRef lo) "type") as [| |b|f|s|l];
    simpl in Ht |- *; try reflexivity.
  - destruct b; [discriminate|reflexivity].
  - destruct f; try discriminate; reflexivity.
  - destruct (negb (String.eqb s "")); reflexivity.
  - discriminate.
Qed.

(** C2, as amended: in each copy the constructor throws one of its own
    errors, and does nothing else, exactly when options is null or not an
    object, or width is not a number other than 0 and NaN (absent included),
    or height is not; negative numbers pass.  On all other options no such
    error is raised, and the constructor goes on to lower-case the type
    option, load chart.js and call the chartCallback: an error thrown by the
    lower-casing or by the callback is the constructor's error, and when both
    return, construction succeeds, with width, height, the Image class, the
    lower-cased type and the module stored.  Lower-casing returns when the
    type is absent or a string; the callback step returns when there is no
    callback, and is the callback's own outcome when there is one. *)
Theorem constructor_validates C options w :
  let h := heap (w_env w) in
  Forall (fun ctor : value -> M ChartJSNodeCanvas =>
            (validation_error (fst (ctor options w)) <-> rejected h options = true)
            /\ (rejected h options = true -> snd (ctor options w) = w)
            /\ (rejected h options = false ->
                (forall e wt,
                    type_step C options w = (Thrown e, wt) ->
                    ctor options w = (Thrown e, wt))
                /\ (forall t wt m wr,
                      type_step C options w = (Returned t, wt) ->
                      require C "chart.js" wt = (Returned m, wr) ->
                      (forall e wc,
                          callback_step C options m wr = (Thrown e, wc) ->
                          ctor options w = (Thrown e, wc))
                      /\ (forall wc,
                            callback_step C options m wr = (Returned tt, wc) ->
                            exists w',
                              ctor options w =
                                (Returned {| _width := field h options "width";
                                             _height := field h options "height";
                                             _image := lib_Image C;
                                             _type := t;
                                             _chartJs := m |}, w')))))
         (constructors C)
  /\ (rejected h options = false ->
      (type_option_ok (field h options "type") = true ->
       type_step C options w = (Returned (normal_type C (field h options "type")), w))
      /\ (forall m wr,
            to_boolean (field (heap (w_env wr)) options "chartCallback") = false ->
            callback_step C options m wr = (Returned tt, wr))
      /\ (forall m wr f fid,
            field (heap (w_env wr)) options "chartCallback" = VRef f ->
            callee (obj_at (heap (w_env wr)) f) = Some fid ->
            callback_step C options m wr =
              match call_fn C fid options [m] (w_env wr) with
              | (ExtOk _, e4) =>
                  (Returned tt,
                   {| w_env := e4; w_log := w_log wr ++ [ECall (VRef f) [m]] |})
              | (ExtThrow v, e4) =>
                  (Thrown (Foreign v),
                   {| w_env := e4; w_log := w_log wr ++ [ECall (VRef f) [m]] |})
              end)).
Proof.
  cbv zeta.
  assert (Hobj : rejected (heap (w_env w)) options = false -> exists lo, options = VRef lo).
  { intros Hrej. unfold rejected in Hrej. apply is_object_ref with (h := heap (w_env w)).
    destruct (is_object (heap (w_env w)) options); [reflexivity|discriminate]. }
  split.
  - assert (Hgen : forall initialize,
               raises_no_Error (initialize options) ->
               (forall lo l w' wr,
                   options = VRef lo ->
                   require C "chart.js" w' = (Returned (VRef l), wr) ->
                   (forall e wc,
                       callback_step C options (VRef l) wr = (Thrown e, wc) ->
                       initialize options w' = (Thrown e, wc))
                   /\ (forall wc,
                         callback_step C options (VRef l) wr = (Returned tt, wc) ->
                         exists w'', initialize options w' = (Returned (VRef l), w''))) ->
               (validation_error (fst (constructor_ C initialize options w))
                <-> rejected (heap (w_env w)) options = true)
               /\ (rejected (heap (w_env w)) options = true ->
                   snd (constructor_ C initialize options w) = w)
               /\ (rejected (heap (w_env w)) options = false ->
                   (forall e wt,
                       type_step C options w = (Thrown e, wt) ->
                       constructor_ C initialize options w = (Thrown e, wt))
                   /\ (forall t wt m wr,
                         type_step C options w = (Returned t, wt) ->
                         require C "chart.js" wt = (Returned m, wr) ->
                         (forall e wc,
                             callback_step C options m wr = (Thrown e, wc) ->
                             constructor_ C initialize options w = (Thrown e, wc))
                         /\ (forall wc,
                               callback_step C options m wr = (Returned tt, wc) ->
                               exists w',
                                 constructor_ C initialize options w =
                                   (Returned
                                      {| _width := field (heap (w_env w)) options "width";
                                         _height := field (heap (w_env w)) options "height";
                                         _image := lib_Image C;
                                         _type := t;
                                         _chartJs := m |}, w'))))).
    { intros initialize Hno Hinit.
      destruct (constructor_checks C initialize options w) as [msg Hc]. cbv zeta in Hc.
      destruct (rejected (heap (w_env w)) options) eqn:Hrej.
      - rewrite Hc. simpl. split; [|split].
        + split; [reflexivity|]. intros _. now exists msg.
        + reflexivity.
        + discriminate.
      - destruct (Hobj eq_refl) as [lo ->].
        rewrite (bind_ext_l _ (type_step C (VRef lo)) _ w) in Hc
          by (symmetry; apply type_step_ref).
        split; [|split].
        + split; [|discriminate]. intros [msg' Hv]. exfalso. revert Hv. rewrite Hc.
          apply (raises_no_Error_bind (type_step C (VRef lo))).
          * unfold type_step. no_Error.
          * intros t. apply raises_no_Error_bind; [exact Hno|].
            intros m. apply raises_no_Error_ret.
        + discriminate.
        + intros _. split.
          * intros e wt Ht. rewrite Hc. now apply bind_thrown.
          * intros t wt m wr Ht Hreq.
            destruct (require_returns C "chart.js" wt) as [Hr _]. cbv zeta in Hr.
            rewrite Hr in Hreq. injection Hreq as <- <-.
            destruct (Hinit lo _ wt _ eq_refl Hr) as [Hthrow Hret].
            rewrite Hc, (bind_returned _ _ _ _ _ Ht). split.
            -- intros e wc Hcb. apply bind_thrown. now apply Hthrow.
            -- intros wc Hcb. destruct (Hret wc Hcb) as [w'' Hi].
               exists w''. now rewrite (bind_returned _ _ _ _ _ Hi). }
    unfold constructors, IndexTs.constructor, Part000.constructor, Part001.constructor.
    destruct (raises_no_Error_initialize C options) as (N1 & N2 & N3).
    repeat first [apply List.Forall_cons | apply List.Forall_nil]; apply Hgen;
      try assumption.
    + intros lo l w' wr -> Hreq.
      destruct (initialize_by_callback C lo w' l wr Hreq) as [Hthrow Hret]. split.
      * intros e wc Hcb. now apply Hthrow.
      * intros wc Hcb. destruct (Hret wc Hcb) as [Hi _]. eexists. exact Hi.
    + intros lo l w' wr -> Hreq.
      destruct (initialize_by_callback C lo w' l wr Hreq) as [Hthrow Hret]. split.
      * intros e wc Hcb. rewrite initialize_same_in_part_000. now apply Hthrow.
      * intros wc Hcb. destruct (Hret wc Hcb) as [Hi _]. eexists.
        rewrite initialize_same_in_part_000. exact Hi.
    + intros lo l w' wr -> Hreq.
      destruct (initialize_by_callback C lo w' l wr Hreq) as [Hthrow Hret]. split.
      * intros e wc Hcb. now apply Hthrow.
      * intros wc Hcb. destruct (Hret wc Hcb) as [_ Hi]. eexists. exact Hi.
  - intros Hrej. destruct (Hobj Hrej) as [lo ->]. split; [|split].
    + apply type_step_returns.
    + intros m wr. apply callback_step_absent.
    + intros m wr f fid. apply callback_step_called.
Qed.

(** C5, as amended: [initialize] of [src/index.ts] and of [part_000]
    performs, in order: obtain the chart.js module, which is a newly loaded
    one (with the engine's built-in components registered, and now cached)
    when chart.js is not in the module cache on entry, and the cached module
    itself when it is; call the chartCallback with it, when one was supplied;
    when the callback returns (or there is none), register on the module a
    BackgroundColourPlugin built from the width and height options and
    '#fff', after whatever is registered on it, evict chart.js from the
    cache, and return the module.  [initialize] of [part_001] performs the
    same steps without the registration.  When the chartCallback throws, in
    every copy [initialize] throws its error there: nothing is registered by
    the facade and chart.js is not evicted. *)
Theorem initialize_steps_in_order C lo w :
  let l := module_loc (w_env w) "chart.js" in
  let m := VRef l in
  let wr := snd (require C "chart.js" w) in
  let cb := field (heap (w_env wr)) (VRef lo) "chartCallback" in
  let src := IndexTs.initialize C (VRef lo) w in
  let old := Part001.initialize C (VRef lo) w in
  fst (require C "chart.js" w) = Returned m
  /\ w_log wr = w_log w ++ [ERequire "chart.js" m]
  /\ (require_cache (w_env w) !! "chart.js" = None ->
      heap (w_env w) !! l = None
      /\ callee (obj_at (heap (w_env wr)) l) = Some (Chart_fn C)
      /\ registered (w_env wr) !! l = Some (Chart_builtins C)
      /\ require_cache (w_env wr) !! "chart.js" = Some l)
  /\ (forall l0, require_cache (w_env w) !! "chart.js" = Some l0 ->
                 l = l0 /\ w_env wr = w_env w)
  /\ (to_boolean cb = false -> callback_step C (VRef lo) m wr = (Returned tt, wr))
  /\ (forall f fid,
         cb = VRef f ->
         callee (obj_at (heap (w_env wr)) f) = Some fid ->
         callback_step C (VRef lo) m wr =
           match call_fn C fid (VRef lo) [m] (w_env wr) with
           | (ExtOk _, e4) =>
               (Returned tt, {| w_env := e4; w_log := w_log wr ++ [ECall cb [m]] |})
           | (ExtThrow v, e4) =>
               (Thrown (Foreign v), {| w_env := e4; w_log := w_log wr ++ [ECall cb [m]] |})
           end)
  /\ Part000.initialize C (VRef lo) w = src
  /\ (forall wc,
         callback_step C (VRef lo) m wr = (Returned tt, wc) ->
         let p := BackgroundColourPlugin.new (field (heap (w_env wc)) (VRef lo) "width")
                    (field (heap (w_env wc)) (VRef lo) "height") (VString "#fff") in
         fst src = Returned m
         /\ w_log (snd src) = w_log wc ++ [ERegister m (CBackground p); EEvict "chart.js"]
         /\ registered (w_env (snd src)) !! l =
              Some (default [] (registered (w_env wc) !! l) ++ [CBackground p])
         /\ (forall l', l' <> l ->
                registered (w_env (snd src)) !! l' = registered (w_env wc) !! l')
         /\ require_cache (w_env (snd src)) !! "chart.js" = None
         /\ heap (w_env (snd src)) = heap (w_env wc)
         /\ fst old = Returned m
         /\ w_log (snd old) = w_log wc ++ [EEvict "chart.js"]
         /\ registered (w_env (snd old)) = registered (w_env wc)
         /\ require_cache (w_env (snd old)) !! "chart.js" = None
         /\ heap (w_env (snd old)) = heap (w_env wc))
  /\ (forall e wc,
         callback_step C (VRef lo) m wr = (Thrown e, wc) ->
         src = (Thrown e, wc) /\ old = (Thrown e, wc)).
Proof.
  cbv zeta.
  destruct (require_returns C "chart.js" w) as [Hreq Hlog]. cbv zeta in Hreq, Hlog.
  split; [now rewrite Hreq|]. split; [exact Hlog|].
  split.
  { intros Hc. unfold module_loc. rewrite Hc.
    rewrite (require_uncached C w Hc). simpl. repeat split.
    - apply fresh_unallocated.
    - unfold obj_at. now rewrite lookup_insert_eq.
    - apply lookup_insert_eq.
    - apply lookup_insert_eq. }
  split.
  { intros l0 Hc. unfold module_loc. rewrite Hc.
    rewrite (require_cached C _ w l0 Hc). split; reflexivity. }
  split; [apply callback_step_absent|].
  split.
  { intros f fid Hf Hcallee. rewrite Hf.
    now apply callback_step_called. }
  split; [reflexivity|].
  destruct (initialize_by_callback C lo w _ _ Hreq) as [Hthrow Hret].
  split.
  - intros wc Hcb. destruct (Hret wc Hcb) as [Hsrc Hold]. cbv zeta in Hsrc.
    rewrite Hsrc, Hold. simpl. repeat split.
    + apply lookup_insert_eq.
    + intros l' Hne. now apply lookup_insert_ne.
    + apply lookup_delete_eq.
    + apply lookup_delete_eq.
  - intros e wc Hcb. exact (Hthrow e wc Hcb).
Qed.

(** ** How the render methods fail *)

(** A throw of [renderChart] passes through every render method. *)
Lemma render_methods_thrown C this configuration mimeType w e w1 :
  renderChart C this configuration w = (Thrown e, w1) ->
  Forall (fun r => r = (Some e, w1)) (render_calls C this configuration mimeType w).
Proof.
  intros Hr.
  unfold render_calls, buffer_calls, outcome.
  unfold IndexTs.renderToBuffer, IndexTs.renderToBufferSync, Part000.renderToBuffer,
    Part000.renderToBufferSync, Part001.renderToBuffer, Part001.renderToBufferSync,
    Part001.renderToDataURL, Part001.renderToDataURLSync.
  rewrite !(bind_thrown _ _ _ _ _ Hr). simpl.
  repeat first [apply List.Forall_cons | apply List.Forall_nil]; reflexivity.
Qed.

(** C9, as amended: [registerFont] hands the provider the path and the
    family name of the options, and only those: the face registered has
    neither the weight nor the style of the options. *)
Theorem registerFont_registers_family_only path lo w :
  let h := heap (w_env w) in
  let family := field h (VRef lo) "family" in
  let face := {| face_path := path; face_family := family;
                 face_weight := VUndefined; face_style := VUndefined |} in
  IndexTs.registerFont path (VRef lo) w =
    (Returned tt,
     {| w_env := set_fonts (fonts (w_env w) ++ [RegisterFromPath path family]) (w_env w);
        w_log := w_log w |})
  /\ Part000.registerFont path (VRef lo) w =
       (Returned tt,
        {| w_env := set_fonts (fonts (w_env w) ++ [FontLibraryUse family [path]]) (w_env w);
           w_log := w_log w |})
  /\ Part001.registerFont path (VRef lo) w = Part000.registerFont path (VRef lo) w
  /\ registry_faces (w_env (snd (IndexTs.registerFont path (VRef lo) w)))
       = registry_faces (w_env w) ++ [face]
  /\ registry_faces (w_env (snd (Part000.registerFont path (VRef lo) w)))
       = registry_faces (w_env w) ++ [face].
Proof.
  cbv zeta. unfold registry_faces.
  repeat split; simpl; rewrite ?flat_map_app; reflexivity.
Qed.

(** ** The code on the sample process *)

(** C1, as the code has it: [renderChart] has no try/finally.  Whenever the
    chart constructor throws, every render method of every copy throws the
    constructor's error and does nothing after it: [delete global.Image] is
    skipped, so the slot stays bound to the facade's Image class (unless the
    constructor itself unbound it). *)
Theorem Image_stays_bound_when_chart_constructor_throws
    C this configuration mimeType w cv w1 v e2 :
  renderChart_prelude C this configuration w = (Returned cv, w1) ->
  Chart_new C (_chartJs this) cv configuration
    (set_global_Image (Some (_image this)) (w_env w1)) = (ExtThrow v, e2) ->
  global_Image e2 = Some (_image this) ->
  Forall (fun r => r = (Some (Foreign v), {| w_env := e2; w_log := w_log w |})
                   /\ global_Image (w_env (snd r)) = Some (_image this))
         (render_calls C this configuration mimeType w).
Proof.
  intros Hp Hc Hg.
  pose proof (renderChart_thrown_keeps C this configuration w cv w1 v e2 Hp Hc) as Hr.
  pose proof (render_methods_thrown C this configuration mimeType w _ _ Hr) as Hall.
  eapply List.Forall_impl; [|exact Hall].
  intros r ->. split; [reflexivity|exact Hg].
Qed.

(** C4, as the code has it: with the option backgroundColour: 'red' the
    plugin that [initialize] registers is built with '#fff'; the option is
    never read. *)
Theorem backgroundColour_option_is_ignored :
  said_fill Sample.heap0 (VRef 7) = VString "red"
  /\ (let r := IndexTs.constructor Sample.collab (VRef 7) Sample.world0 in
      (exists facade, fst r = Returned facade /\ _chartJs facade = VRef 15)
      /\ background_fills (default [] (registered (w_env (snd r)) !! 15))
         = [VString "#fff"])
  /\ (let r := Part000.constructor Sample.collab (VRef 7) Sample.world0 in
      (exists facade, fst r = Returned facade /\ _chartJs facade = VRef 15)
      /\ background_fills (default [] (registered (w_env (snd r)) !! 15))
         = [VString "#fff"]).
Proof.
  split; [reflexivity|].
  split; (split; [eexists; split; vm_compute; reflexivity | vm_compute; reflexivity]).
Qed.

(** C2, where the claim fails: options with width -1 are said to be
    rejected, and the constructor accepts them; options with positive width
    and height are said to construct, and with a chartCallback that throws
    they do not. *)
Lemma constructor_accepts_negative_width :
  (said_rejected Sample.heap0 (VRef 4) = true
   /\ exists facade,
        fst (IndexTs.constructor Sample.collab (VRef 4) Sample.world0) = Returned facade
        /\ _width facade = num (-1))
  /\ (said_rejected Sample.heap0 (VRef 6) = false
      /\ fst (IndexTs.constructor Sample.collab (VRef 6) Sample.world0)
         = Thrown (Foreign (VString "callback failed"))).
Proof.
  split; split; try reflexivity.
  eexists. split; vm_compute; reflexivity.
Qed.

(** C5, where the claim fails: [initialize] of [part_001] registers nothing
    on the module it returns; when chart.js is already cached, the reference
    [initialize] of [src/index.ts] obtains is the cached module, an object
    that existed before the call; and when the chartCallback throws, nothing
    is registered and chart.js stays cached. *)
Lemma initialize_part_001_registers_nothing :
  (let r := Part001.initialize Sample.collab (VRef 1) Sample.world0 in
   fst r = Returned (VRef 15)
   /\ existsb is_register (w_log (snd r)) = false
   /\ registered (w_env (snd r)) !! 15 = Some (Chart_builtins Sample.collab)
   /\ background_fills (default [] (registered (w_env (snd r)) !! 15)) = [])
  /\ (let r := IndexTs.initialize Sample.collab (VRef 1) Sample.world_cached in
      fst r = Returned (VRef 14)
      /\ is_Some (heap (w_env Sample.world_cached) !! 14))
  /\ (let r := IndexTs.initialize Sample.collab (VRef 6) Sample.world0 in
      fst r = Thrown (Foreign (VString "callback failed"))
      /\ existsb is_register (w_log (snd r)) = false
      /\ require_cache (w_env (snd r)) !! "chart.js" = Some 15).
Proof.
  split; [vm_compute; repeat split|].
  split; [|vm_compute; repeat split].
  split; [vm_compute; reflexivity|]. eexists. vm_compute. reflexivity.
Qed.


(** C9, where the claim fails: registering a font with weight 'bold' leaves
    a face without weight in the registry, not the face of the options. *)
Lemma registerFont_drops_weight :
  let path := VString "comicsans.ttf" in
  let r := IndexTs.registerFont path (VRef 8) Sample.world0 in
  fst r = Returned tt
  /\ face_weight (said_face Sample.heap0 path (VRef 8)) = VString "bold"
  /\ registry_faces (w_env (snd r)) =
       [{| face_path := path; face_family := VString "Comic Sans";
           face_weight := VUndefined; face_style := VUndefined |}]
  /\ registry_faces (w_env (snd r)) <> [said_face Sample.heap0 path (VRef 8)].
Proof.
  vm_compute. repeat split. discriminate.
Qed.

(** ** Instances *)



(** Options with a callback that returns, nothing cached: require, call,
    register, evict. *)
Lemma initialize_steps_in_order_witness :
  let src := IndexTs.initialize Sample.collab (VRef 10) Sample.world0 in
  fst src = Returned (VRef 15)
  /\ w_log (snd src) =
       [ ERequire "chart.js" (VRef 15);
         ECall (VRef 9) [VRef 15];
         ERegister (VRef 15)
           (CBackground (BackgroundColourPlugin.new (num 400) (num 300) (VString "#fff")));
         EEvict "chart.js" ]
  /\ registered (w_env (snd src)) !! 15 =
       Some (Chart_builtins Sample.collab
             ++ [CBackground (BackgroundColourPlugin.new (num 400) (num 300)
                                (VString "#fff"))]).
Proof.
  cbv zeta.
  destruct (initialize_steps_in_order Sample.collab 10 Sample.world0)
    as (_ & _ & _ & _ & _ & _ & _ & Hret & _).
  edestruct Hret as (Hm & Hlog & Hreg & _); [vm_compute; reflexivity|].
  split; [exact Hm|]. split; [exact Hlog|exact Hreg].
Defined.

(** The engine rejects chart type 'nope' once there is a dataset to draw:
    with [global.Image] unset before the call, all eight methods throw the
    engine's error and leave it bound. *)
Lemma Image_stays_bound_when_chart_constructor_throws_witness :
  global_Image (w_env Sample.world_datasets) = None
  /\ Forall (fun r => fst r = Some (Foreign (VString "not a registered controller"))
                      /\ global_Image (w_env (snd r)) = Some (VRef 0))
            (render_calls Sample.collab Sample.facade (VRef 16) VUndefined
               Sample.world_datasets).
Proof.
  split; [reflexivity|].
  eapply List.Forall_impl;
    [|eapply (Image_stays_bound_when_chart_constructor_throws Sample.collab Sample.facade
                (VRef 16) VUndefined Sample.world_datasets);
      [vm_compute; reflexivity | vm_compute; reflexivity | reflexivity]].
  intros r [-> Hg]. split; [reflexivity|exact Hg].
Defined.

(** * Further properties *)

(** ** The constructor's errors *)

(** Which of its three errors the constructor throws: the checks are made in
    the order options, width, height, and the first that fails decides the
    message; nothing has been done by then. *)
Lemma constructor_first_failure C initialize options w :
  let h := heap (w_env w) in
  (is_object h options = false ->
   constructor_ C initialize options w
   = (Thrown (JsError "An options parameter object is required"), w))
  /\ (is_object h options = true ->
      nonzero_number (field h options "width") = false ->
      constructor_ C initialize options w
      = (Thrown (JsError "A width option is required"), w))
  /\ (is_object h options = true ->
      nonzero_number (field h options "width") = true ->
      nonzero_number (field h options "height") = false ->
      constructor_ C initialize options w
      = (Thrown (JsError "A height option is required"), w)).
Proof.
  cbv zeta. repeat split.
  - intros Hobj. unfold constructor_.
    unfold bind at 1. unfold get_env at 1. cbv beta iota.
    rewrite object_check, Hobj. reflexivity.
  - intros Hobj Hw. unfold constructor_.
    unfold bind at 1. unfold get_env at 1. cbv beta iota.
    rewrite object_check, Hobj. cbn [negb]. cbv beta iota.
    destruct (is_object_ref _ _ Hobj) as [l ->].
    unfold bind at 1. rewrite get_prop_ref. cbv beta iota.
    rewrite dimension_check, Hw. reflexivity.
  - intros Hobj Hw Hh. unfold constructor_.
    unfold bind at 1. unfold get_env at 1. cbv beta iota.
    rewrite object_check, Hobj. cbn [negb]. cbv beta iota.
    destruct (is_object_ref _ _ Hobj) as [l ->].
    unfold bind at 1. rewrite get_prop_ref. cbv beta iota.
    rewrite dimension_check, Hw. cbn [negb]. cbv beta iota.
    unfold bind at 1. rewrite get_prop_ref. cbv beta iota.
    rewrite dimension_check, Hh. reflexivity.
Qed.

(** X1: in each copy the constructor checks options, then width, then
    height, and throws the message of the first check that fails, leaving
    the process untouched: a bad options value hides bad dimensions, and a
    bad width hides a bad height. *)
Theorem constructor_reports_first_failure C options w :
  let h := heap (w_env w) in
  Forall (fun ctor : value -> M ChartJSNodeCanvas =>
            ctor options w =
              if negb (is_object h options)
              then (Thrown (JsError "An options parameter object is required"), w)
              else if negb (nonzero_number (field h options "width"))
              then (Thrown (JsError "A width option is required"), w)
              else if negb (nonzero_number (field h options "height"))
              then (Thrown (JsError "A height option is required"), w)
              else ctor options w)
         (constructors C).
Proof.
  cbv zeta.
  assert (Hgen : forall initialize,
             constructor_ C initialize options w =
               if negb (is_object (heap (w_env w)) options)
               then (Thrown (JsError "An options parameter object is required"), w)
               else if negb (nonzero_number (field (heap (w_env w)) options "width"))
               then (Thrown (JsError "A width option is required"), w)
               else if negb (nonzero_number (field (heap (w_env w)) options "height"))
               then (Thrown (JsError "A height option is required"), w)
               else constructor_ C initialize options w).
  { intros initialize.
    destruct (constructor_first_failure C initialize options w) as (H1 & H2 & H3).
    cbv zeta in H1, H2, H3.
    destruct (is_object (heap (w_env w)) options); [|now apply H1].
    destruct (nonzero_number (field (heap (w_env w)) options "width")); [|now apply H2].
    destruct (nonzero_number (field (heap (w_env w)) options "height")); [|now apply H3].
    reflexivity. }
  unfold constructors, IndexTs.constructor, Part000.constructor, Part001.constructor.
  repeat first [apply List.Forall_cons | apply List.Forall_nil]; apply Hgen.
Qed.

(** X2: whatever makes [renderChart] throw makes every render method throw
    the same error at once, in the same state: the methods that return a
    promise ([renderToBuffer], [renderToDataURL]) throw synchronously and do
    not return a rejected promise, and no encoder is called. *)
Theorem render_failure_is_thrown_synchronously C this configuration mimeType w e w1 :
  renderChart C this configuration w = (Thrown e, w1) ->
  Forall (fun r => r = (Some e, w1)) (render_calls C this configuration mimeType w)
  /\ w_log w1 = w_log w.
Proof.
  intros Hr. split.
  - now apply render_methods_thrown.
  - pose proof (renderChart_log C this configuration w) as Hlog.
    rewrite Hr in Hlog. exact Hlog.
Qed.

(** X3: the buffer methods do not check for a canvas. When the chart has
    none they all throw a TypeError of the language, synchronously, without
    calling an encoder; the facade's own 'Canvas is null' error is raised by
    the data-URL methods only. *)
Theorem buffer_methods_without_canvas C this configuration w c w1 :
  renderChart C this configuration w = (Returned c, w1) ->
  canvas c = None ->
  Forall (fun r => r = (Some (JsTypeError "Cannot read properties of undefined or null"), w1))
         (buffer_calls C this configuration w).
Proof.
  intros Hr Hc.
  unfold buffer_calls, outcome.
  unfold IndexTs.renderToBuffer, IndexTs.renderToBufferSync, Part000.renderToBuffer,
    Part000.renderToBufferSync, Part001.renderToBuffer, Part001.renderToBufferSync.
  rewrite !(bind_returned _ _ _ _ _ Hr), Hc. simpl.
  repeat first [apply List.Forall_cons | apply List.Forall_nil]; reflexivity.
Qed.

(** ** The Image binding on the normal path *)

(** X4: when the chart constructor returns, every render method leaves
    [global.Image] deleted, whatever it was before the call: a binding the
    caller had is not put back. *)
Theorem successful_render_deletes_Image C this configuration mimeType w c w1 :
  renderChart C this configuration w = (Returned c, w1) ->
  Forall (fun r => global_Image (w_env (snd r)) = None)
         (render_calls C this configuration mimeType w).
Proof.
  intros Hr.
  pose proof (renderChart_returned_clears C this configuration w c w1 Hr) as Hnone.
  destruct (render_methods_env C this configuration mimeType w)
    as (E1 & E2 & E3 & E4 & E5 & E6 & E7 & E8).
  rewrite Hr in E1, E2, E3, E4, E5, E6, E7, E8. simpl in E1, E2, E3, E4, E5, E6, E7, E8.
  unfold render_calls, buffer_calls, outcome. simpl.
  repeat first [apply List.Forall_cons | apply List.Forall_nil]; simpl;
    first [rewrite E1 | rewrite E2 | rewrite E3 | rewrite E4
          | rewrite E5 | rewrite E6 | rewrite E7 | rewrite E8]; exact Hnone.
Qed.

(** ** When the data-URL methods destroy the chart *)

(** X5: [renderToDataURL] calls [chart.destroy()] exactly when the chart has
    a canvas and the encoder called back, with a string or with an error;
    [renderToDataURLSync] exactly when the chart has a canvas and the
    encoder returned. A chart without canvas, and a chart whose encoder
    threw, is never destroyed. *)
Theorem dataURL_destroys_exactly_after_encoding C this configuration mimeType w c w1 :
  renderChart C this configuration w = (Returned c, w1) ->
  let mime := Part001.default_mimeType mimeType in
  destroyed (w_log (snd (Part001.renderToDataURL C this configuration mimeType w)))
  = destroyed (w_log w) ++
      match canvas c with
      | Some cv => match toDataURL_callback C cv mime with
                   | ExtOk _ => [EDestroy (chart_id c)]
                   | ExtThrow _ => []
                   end
      | None => []
      end
  /\ destroyed (w_log (snd (Part001.renderToDataURLSync C this configuration mimeType w)))
     = destroyed (w_log w) ++
         match canvas c with
         | Some cv => match toDataURL_sync C cv mime with
                      | ExtOk _ => [EDestroy (chart_id c)]
                      | ExtThrow _ => []
                      end
         | None => []
         end.
Proof.
  intros Hr. cbv zeta. unfold destroyed.
  pose proof (renderChart_log C this configuration w) as Hlog.
  rewrite Hr in Hlog. simpl in Hlog.
  unfold Part001.renderToDataURL, Part001.renderToDataURLSync.
  rewrite !(bind_returned _ _ _ _ _ Hr).
  destruct (canvas c) as [cv|].
  - split.
    + unfold bind, log, Chart_destroy, ret. simpl.
      destruct (toDataURL_callback C cv _) as [[error png]|v]; simpl.
      * destruct (to_boolean error); simpl; rewrite Hlog, !filter_app; simpl;
          now rewrite app_nil_r.
      * rewrite Hlog, !filter_app. reflexivity.
    + unfold bind, log, Chart_destroy, ret, throw. simpl.
      destruct (toDataURL_sync C cv _) as [url|v]; simpl.
      * rewrite Hlog, !filter_app; simpl. now rewrite app_nil_r.
      * rewrite Hlog, !filter_app. reflexivity.
  - unfold ret, throw. simpl. rewrite Hlog, app_nil_r. split; reflexivity.
Qed.

(** ** What renderChart prepares *)


(** The surface once it has its style record, and the heap then. *)
Lemma style_step (cv0 : surface) w :
  exists hs st,
    (forall l, obj_at hs l = obj_at (heap (w_env w)) l)
    /\ to_boolean st = true
    /\ (to_boolean (s_style cv0) = true -> st = s_style cv0)
    /\ (if to_boolean (s_style cv0) then ret (s_style cv0) else new_object) w
       = (Returned st, {| w_env := set_heap hs (w_env w); w_log := w_log w |}).
Proof.
  destruct (to_boolean (s_style cv0)) eqn:Hst.
  - exists (heap (w_env w)), (s_style cv0). repeat split; auto.
    unfold ret. destruct w as [[] ?]; reflexivity.
  - exists (<[fresh (dom (heap (w_env w))) := empty_object]> (heap (w_env w))),
      (VRef (fresh (dom (heap (w_env w))))).
    split; [|split; [reflexivity|split; [discriminate|reflexivity]]].
    intros l. apply obj_at_alloc, fresh_unallocated.
Qed.





(** X7: whenever [renderChart] gets as far as the chart constructor, the
    engine is handed a surface made by the provider for the facade's width
    and height, with a style record on it (the provider's own when it has
    one), while [global.Image] is bound to the facade's Image class. *)
Theorem engine_is_handed_surface_and_Image C this configuration w cv w1 :
  renderChart_prelude C this configuration w = (Returned cv, w1) ->
  exists cv0,
    Canvas_new C (_width this) (_height this) = ExtOk cv0
    /\ s_width cv = s_width cv0
    /\ s_height cv = s_height cv0
    /\ s_pixels cv = s_pixels cv0
    /\ to_boolean (s_style cv) = true
    /\ (to_boolean (s_style cv0) = true -> s_style cv = s_style cv0)
    /\ global_Image (set_global_Image (Some (_image this)) (w_env w1)) = Some (_image this)
    /\ renderChart C this configuration w =
         match Chart_new C (_chartJs this) cv configuration
                 (set_global_Image (Some (_image this)) (w_env w1)) with
         | (ExtOk c, e2) =>
             (Returned c, {| w_env := set_global_Image None e2; w_log := w_log w1 |})
         | (ExtThrow v, e2) =>
             (Thrown (Foreign v), {| w_env := e2; w_log := w_log w1 |})
         end.
Proof.
  intros Hp.
  destruct (Canvas_new C (_width this) (_height this)) as [cv0|v] eqn:Hcv.
  2:{ exfalso. revert Hp. unfold renderChart_prelude. rewrite Hcv, bind_lift_throw.
      discriminate. }
  exists cv0. split; [reflexivity|].
  assert (Hsurf : exists st,
             to_boolean st = true
             /\ (to_boolean (s_style cv0) = true -> st = s_style cv0)
             /\ cv = {| s_width := s_width cv0; s_height := s_height cv0;
                        s_style := st; s_pixels := s_pixels cv0 |}).
  { destruct (style_step cv0 w) as (hs & st & _ & Htrue & Hkeep & Hst).
    exists st. split; [exact Htrue|]. split; [exact Hkeep|].
    revert Hp. unfold renderChart_prelude. rewrite Hcv, bind_lift_ok.
    unfold bind at 1. rewrite Hst.
    unfold bind, ret. intros Hp.
    repeat match type of Hp with
           | context [match ?x with (_, _) => _ end] =>
               destruct x as [[?|?] ?]; try discriminate
           end.
    now injection Hp as <- _. }
  destruct Hsurf as (st & Htrue & Hkeep & ->). simpl.
  repeat split; try assumption.
  rewrite renderChart_bracket, Hp. reflexivity.
Qed.

(** ** Rendering the same configuration again *)



(** ** What construction leaves behind *)

(** [initialize] without a callback, from an empty module cache: the world
    it leaves, written out. *)
Lemma initialize_plain C lo w :
  require_cache (w_env w) !! "chart.js" = None ->
  is_Some (heap (w_env w) !! lo) ->
  to_boolean (field (heap (w_env w)) (VRef lo) "chartCallback") = false ->
  let h := heap (w_env w) in
  let l := fresh (dom h) in
  let p := BackgroundColourPlugin.new (field h (VRef lo) "width")
             (field h (VRef lo) "height") (VString "#fff") in
  let loaded := set_heap (<[l := {| props := ∅; callee := Some (Chart_fn C) |}]> h) (w_env w) in
  IndexTs.initialize C (VRef lo) w =
    (Returned (VRef l),
     {| w_env := set_require_cache (delete "chart.js" (<["chart.js" := l]> (require_cache (w_env w))))
                   (set_registered (<[l := Chart_builtins C ++ [CBackground p]]>
                                      (<[l := Chart_builtins C]> (registered (w_env w))))
                      loaded);
        w_log := w_log w ++ [ERequire "chart.js" (VRef l);
                             ERegister (VRef l) (CBackground p); EEvict "chart.js"] |})
  /\ Part001.initialize C (VRef lo) w =
       (Returned (VRef l),
        {| w_env := set_require_cache (delete "chart.js" (<["chart.js" := l]> (require_cache (w_env w))))
                      (set_registered (<[l := Chart_builtins C]> (registered (w_env w))) loaded);
           w_log := w_log w ++ [ERequire "chart.js" (VRef l); EEvict "chart.js"] |}).
Proof.
  intros Hcache Hlo Hcb. cbv zeta.
  pose proof (require_uncached C w Hcache) as Hreq. cbv zeta in Hreq.
  assert (Hfield : forall k,
             field (<[fresh (dom (heap (w_env w))) :=
                        {| props := ∅; callee := Some (Chart_fn C) |}]> (heap (w_env w)))
               (VRef lo) k
             = field (heap (w_env w)) (VRef lo) k).
  { intros k. pose proof (field_after_require C "chart.js" w lo k Hlo) as Hf.
    rewrite Hreq in Hf. exact Hf. }
  destruct (initialize_by_callback C lo w _ _ Hreq) as [_ Hret].
  edestruct Hret as (Hsrc & Hold).
  { apply callback_step_absent.
    exact (eq_trans (f_equal to_boolean (Hfield "chartCallback")) Hcb). }
  cbv zeta in Hsrc. rewrite Hsrc, Hold.
  cbn [w_env w_log heap registered require_cache global_Image fonts
       set_require_cache set_registered set_heap].
  rewrite lookup_insert_eq, !Hfield. cbn [default].
  rewrite <- ?app_assoc. split; reflexivity.
Qed.

(** X9: a facade constructed from accepted options, with no chartCallback and
    a string or absent type, from an empty module cache, holds a chart.js
    module that did not exist before, on which the components registered
    are the engine's own built-ins followed by exactly one more: the
    background plugin with the facade's own width and height and the fill
    '#fff'. No other option (plugins, backgroundColour) registers anything.
    The module is not left in the cache. In [part_001] the module has the
    built-ins only. *)
Theorem constructed_engine_has_one_plugin C lo w :
  let h := heap (w_env w) in
  rejected h (VRef lo) = false ->
  type_option_ok (field h (VRef lo) "type") = true ->
  to_boolean (field h (VRef lo) "chartCallback") = false ->
  require_cache (w_env w) !! "chart.js" = None ->
  is_Some (h !! lo) ->
  let l := fresh (dom h) in
  (exists facade w',
     IndexTs.constructor C (VRef lo) w = (Returned facade, w')
     /\ Part000.constructor C (VRef lo) w = (Returned facade, w')
     /\ _chartJs facade = VRef l
     /\ h !! l = None
     /\ _width facade = field h (VRef lo) "width"
     /\ _height facade = field h (VRef lo) "height"
     /\ registered (w_env w') !! l =
          Some (Chart_builtins C
                ++ [CBackground (BackgroundColourPlugin.new (_width facade) (_height facade)
                                   (VString "#fff"))])
     /\ require_cache (w_env w') !! "chart.js" = None)
  /\ (exists facade w',
        Part001.constructor C (VRef lo) w = (Returned facade, w')
        /\ _chartJs facade = VRef l
        /\ registered (w_env w') !! l = Some (Chart_builtins C)
        /\ require_cache (w_env w') !! "chart.js" = None).
Proof.
  cbv zeta. intros Hrej Htype Hcb Hcache Hlo.
  destruct (initialize_plain C lo w Hcache Hlo Hcb) as (Hsrc & Hold). cbv zeta in Hsrc, Hold.
  pose proof (type_step_returns C lo w Htype) as Ht.
  split.
  - destruct (constructor_checks C (IndexTs.initialize C) (VRef lo) w) as [msg Hc].
    cbv zeta in Hc. rewrite Hrej in Hc.
    rewrite (bind_ext_l _ (type_step C (VRef lo)) _ w) in Hc
      by (symmetry; apply type_step_ref).
    rewrite (bind_returned _ _ _ _ _ Ht), (bind_returned _ _ _ _ _ Hsrc) in Hc.
    eexists. eexists. split; [exact Hc|]. split; [exact Hc|]. simpl.
    repeat split.
    + apply fresh_unallocated.
    + apply lookup_insert_eq.
    + apply lookup_delete_eq.
  - destruct (constructor_checks C (Part001.initialize C) (VRef lo) w) as [msg Hc].
    cbv zeta in Hc. rewrite Hrej in Hc.
    rewrite (bind_ext_l _ (type_step C (VRef lo)) _ w) in Hc
      by (symmetry; apply type_step_ref).
    rewrite (bind_returned _ _ _ _ _ Ht), (bind_returned _ _ _ _ _ Hold) in Hc.
    eexists. eexists. split; [exact Hc|]. simpl.
    repeat split.
    + apply lookup_insert_eq.
    + apply lookup_delete_eq.
Qed.

(** X10: two facades initialized one after the other, without callbacks and
    from an empty module cache, get two different chart.js modules, each
    with the engine's built-ins and its own background plugin; the second
    initialization leaves the registry of the first module as it was, and
    the cache is empty again at the end. *)
Theorem successive_initializations_are_isolated C lo1 lo2 w :
  let h := heap (w_env w) in
  require_cache (w_env w) !! "chart.js" = None ->
  is_Some (h !! lo1) ->
  is_Some (h !! lo2) ->
  to_boolean (field h (VRef lo1) "chartCallback") = false ->
  to_boolean (field h (VRef lo2) "chartCallback") = false ->
  let r1 := IndexTs.initialize C (VRef lo1) w in
  let r2 := IndexTs.initialize C (VRef lo2) (snd r1) in
  let plugin lo := CBackground (BackgroundColourPlugin.new (field h (VRef lo) "width")
                                  (field h (VRef lo) "height") (VString "#fff")) in
  exists l1 l2,
    fst r1 = Returned (VRef l1)
    /\ fst r2 = Returned (VRef l2)
    /\ l1 <> l2
    /\ registered (w_env (snd r1)) !! l1 = Some (Chart_builtins C ++ [plugin lo1])
    /\ registered (w_env (snd r2)) !! l1 = registered (w_env (snd r1)) !! l1
    /\ registered (w_env (snd r2)) !! l2 = Some (Chart_builtins C ++ [plugin lo2])
    /\ require_cache (w_env (snd r2)) !! "chart.js" = None.
Proof.
  cbv zeta. intros Hcache Hlo1 Hlo2 Hcb1 Hcb2.
  destruct (initialize_plain C lo1 w Hcache Hlo1 Hcb1) as (H1 & _). cbv zeta in H1.
  set (l1 := fresh (dom (heap (w_env w)))) in *.
  assert (Hl1 : heap (w_env w) !! l1 = None) by apply fresh_unallocated.
  assert (Hne2 : l1 <> lo2).
  { intros Heq. rewrite <- Heq, Hl1 in Hlo2. now destruct Hlo2. }
  rewrite H1. cbn [fst snd].
  match goal with
  | |- context [IndexTs.initialize C (VRef lo2) ?w1] => set (w' := w1)
  end.
  assert (Hfield : forall k, field (heap (w_env w')) (VRef lo2) k
                             = field (heap (w_env w)) (VRef lo2) k).
  { intros k. unfold w'. simpl. unfold obj_at. now rewrite lookup_insert_ne. }
  assert (Hcache' : require_cache (w_env w') !! "chart.js" = None).
  { unfold w'. simpl. apply lookup_delete_eq. }
  assert (Hlo2' : is_Some (heap (w_env w') !! lo2)).
  { unfold w'. simpl. now rewrite lookup_insert_ne. }
  assert (Hcb2' : to_boolean (field (heap (w_env w')) (VRef lo2) "chartCallback") = false).
  { now rewrite Hfield. }
  destruct (initialize_plain C lo2 w' Hcache' Hlo2' Hcb2') as (H2 & _). cbv zeta in H2.
  set (l2 := fresh (dom (heap (w_env w')))) in *.
  assert (Hne : l1 <> l2).
  { intros Heq. pose proof (fresh_unallocated (heap (w_env w'))) as Hf.
    fold l2 in Hf. rewrite <- Heq in Hf. unfold w' in Hf. simpl in Hf.
    rewrite lookup_insert_eq in Hf. discriminate. }
  rewrite H2, !Hfield. cbn [fst snd].
  exists l1, l2. repeat split; try assumption.
  - unfold w'. simpl. apply lookup_insert_eq.
  - simpl. now rewrite !lookup_insert_ne by (intros Heq; apply Hne; now rewrite Heq).
  - simpl. apply lookup_insert_eq.
  - simpl. apply lookup_delete_eq.
Qed.

(** ** Drawing the background again and again *)

(** X11: the background plugin can run before every draw: after any number
    of [beforeDraw] calls the context's drawing state and its stack of saved
    states are what they were at the start, four calls were made and one
    rectangle painted per run. *)
Theorem beforeDraw_repeated (style_ok : value -> bool)
    (p : BackgroundColourPlugin.t) (c : chart) (n : nat) :
  let c' := Nat.iter n (BackgroundColourPlugin.beforeDraw style_ok p) c in
  cur (ctx c') = cur (ctx c)
  /\ saved (ctx c') = saved (ctx c)
  /\ length (calls (ctx c')) = length (calls (ctx c)) + 4 * n
  /\ length (painted (ctx c')) = length (painted (ctx c)) + n
  /\ canvas c' = canvas c.
Proof.
  cbv zeta. induction n as [|n IH]; simpl Nat.iter.
  - repeat split; lia.
  - destruct IH as (Hcur & Hsaved & Hcalls & Hpainted & Hcanvas).
    set (c1 := Nat.iter n (BackgroundColourPlugin.beforeDraw style_ok p) c) in *.
    unfold BackgroundColourPlugin.beforeDraw, Context2D.restore, Context2D.fillRect,
      Context2D.set_fillStyle, Context2D.save, Context2D.called.
    destruct (style_ok (BackgroundColourPlugin._fillStyle p)); simpl;
      rewrite ?length_app; simpl; repeat split; try assumption; lia.
Qed.

(** ** What rendering leaves alone *)

(** X12: the render methods themselves never load or evict a module,
    register a component or register a font: with a chart engine that leaves
    the module cache, the registries and the fonts alone, they are the same
    after any render call as before, whether the call returns or throws. *)
Theorem render_leaves_registries_alone C this configuration mimeType w :
  (forall m sf c e,
      let e' := snd (Chart_new C m sf c e) in
      require_cache e' = require_cache e
      /\ registered e' = registered e
      /\ fonts e' = fonts e) ->
  Forall (fun r => require_cache (w_env (snd r)) = require_cache (w_env w)
                   /\ registered (w_env (snd r)) = registered (w_env w)
                   /\ fonts (w_env (snd r)) = fonts (w_env w))
         (render_calls C this configuration mimeType w).
Proof.
  intros Hquiet.
  assert (Hrc : require_cache (w_env (snd (renderChart C this configuration w)))
                = require_cache (w_env w)
                /\ registered (w_env (snd (renderChart C this configuration w)))
                   = registered (w_env w)
                /\ fonts (w_env (snd (renderChart C this configuration w)))
                   = fonts (w_env w)).
  { rewrite renderChart_bracket.
    destruct (prelude_heap_only C this configuration w) as (_ & _ & H3 & H4 & H5).
    destruct (renderChart_prelude C this configuration w) as [[cv|e] w1]; simpl in *;
      [|now repeat split].
    pose proof (Hquiet (_chartJs this) cv configuration
                  (set_global_Image (Some (_image this)) (w_env w1))) as Hq.
    cbv zeta in Hq. simpl in Hq.
    destruct (Chart_new C _ cv configuration _) as [[c|v] e2]; simpl in *;
      destruct Hq as (Q3 & Q4 & Q5); repeat split; congruence. }
  destruct (render_methods_env C this configuration mimeType w)
    as (E1 & E2 & E3 & E4 & E5 & E6 & E7 & E8).
  unfold render_calls, buffer_calls, outcome. simpl.
  repeat first [apply List.Forall_cons | apply List.Forall_nil]; simpl;
    first [rewrite E1 | rewrite E2 | rewrite E3 | rewrite E4
          | rewrite E5 | rewrite E6 | rewrite E7 | rewrite E8]; exact Hrc.
Qed.

(** ** Instances of the further properties *)

(** The engine rejects the chart type of a configuration with a dataset:
    all eight methods throw its error. *)
Lemma render_failure_is_thrown_synchronously_witness :
  Forall (fun r => fst r = Some (Foreign (VString "not a registered controller")))
         (render_calls Sample.collab Sample.facade (VRef 16) VUndefined
            Sample.world_datasets).
Proof.
  destruct (render_failure_is_thrown_synchronously Sample.collab Sample.facade (VRef 16)
              VUndefined Sample.world_datasets
              (Foreign (VString "not a registered controller"))
              (snd (renderChart Sample.collab Sample.facade (VRef 16)
                      Sample.world_datasets)))
    as [Hall _].
  - vm_compute. reflexivity.
  - eapply List.Forall_impl; [|exact Hall]. intros r ->. reflexivity.
Defined.

(** An engine whose charts have no canvas: the buffer methods throw a
    TypeError. *)
Lemma buffer_methods_without_canvas_witness :
  Forall (fun r => fst r = Some (JsTypeError "Cannot read properties of undefined or null"))
         (buffer_calls Sample.collab_no_canvas Sample.facade (VRef 2) Sample.world0).
Proof.
  eapply List.Forall_impl;
    [|apply (buffer_methods_without_canvas Sample.collab_no_canvas Sample.facade (VRef 2)
               Sample.world0
               {| chart_id := 1; canvas := None; ctx := Sample.blank_ctx |}
               (snd (renderChart Sample.collab_no_canvas Sample.facade (VRef 2)
                       Sample.world0)))].
  - intros r ->. reflexivity.
  - vm_compute. reflexivity.
  - reflexivity.
Defined.

(** The caller's own Image global is gone after a successful render. *)
Lemma successful_render_deletes_Image_witness :
  global_Image (w_env Scenes.world_with_Image) = Some (VString "the caller's Image")
  /\ Forall (fun r => global_Image (w_env (snd r)) = None)
            (render_calls Sample.collab Sample.facade (VRef 2) VUndefined
               Scenes.world_with_Image).
Proof.
  split; [reflexivity|].
  apply (successful_render_deletes_Image Sample.collab Sample.facade (VRef 2) VUndefined
           Scenes.world_with_Image
           (match fst (renderChart Sample.collab Sample.facade (VRef 2)
                         Scenes.world_with_Image) with
            | Returned c => c
            | Thrown _ => Instances.no_chart
            end)
           (snd (renderChart Sample.collab Sample.facade (VRef 2) Scenes.world_with_Image))).
  vm_compute. reflexivity.
Defined.

(** The sample line chart is destroyed once by either data-URL method. *)
Lemma dataURL_destroys_exactly_after_encoding_witness :
  destroyed (w_log (snd (Part001.renderToDataURL Sample.collab Sample.facade (VRef 2)
                           VUndefined Sample.world0))) = [EDestroy 1]
  /\ destroyed (w_log (snd (Part001.renderToDataURLSync Sample.collab Sample.facade (VRef 2)
                              VUndefined Sample.world0))) = [EDestroy 1].
Proof.
  exact (dataURL_destroys_exactly_after_encoding Sample.collab Sample.facade (VRef 2)
           VUndefined Sample.world0 Instances.line_chart
           (snd (renderChart Sample.collab Sample.facade (VRef 2) Sample.world0))
           eq_refl).
Defined.

(** The surface of the sample facade: 400 by 300, with a style record. *)
Lemma engine_is_handed_surface_and_Image_witness :
  s_width Instances.line_surface = num 400
  /\ s_height Instances.line_surface = num 300
  /\ to_boolean (s_style Instances.line_surface) = true.
Proof.
  destruct (engine_is_handed_surface_and_Image Sample.collab Sample.facade (VRef 2)
              Sample.world0 Instances.line_surface
              (snd (renderChart_prelude Sample.collab Sample.facade (VRef 2) Sample.world0)))
    as (cv0 & Hcv & Hw & Hh & _ & Hs & _).
  - vm_compute. reflexivity.
  - vm_compute in Hcv. injection Hcv as <-.
    split; [exact Hw|]. split; [exact Hh|exact Hs].
Defined.


(** The sample options: the built-ins and one plugin, 400 by 300, on a new
    module. *)
Lemma constructed_engine_has_one_plugin_witness :
  exists facade w',
    IndexTs.constructor Sample.collab (VRef 1) Sample.world0 = (Returned facade, w')
    /\ registered (w_env w') !! 15 =
         Some (Chart_builtins Sample.collab
               ++ [CBackground (BackgroundColourPlugin.new (num 400) (num 300)
                                  (VString "#fff"))]).
Proof.
  destruct (constructed_engine_has_one_plugin Sample.collab 1 Sample.world0)
    as ((facade & w' & Hc & _ & _ & _ & Hw & Hh & Hreg & _) & _).
  - vm_compute. reflexivity.
  - vm_compute. reflexivity.
  - vm_compute. reflexivity.
  - reflexivity.
  - eexists. vm_compute. reflexivity.
  - exists facade, w'. split; [exact Hc|]. rewrite Hw, Hh in Hreg. exact Hreg.
Defined.

(** Two sample facades, the second with a backgroundColour option. *)
Lemma successive_initializations_are_isolated_witness :
  let r1 := IndexTs.initialize Sample.collab (VRef 1) Sample.world0 in
  let r2 := IndexTs.initialize Sample.collab (VRef 7) (snd r1) in
  exists l1 l2,
    fst r1 = Returned (VRef l1) /\ fst r2 = Returned (VRef l2) /\ l1 <> l2.
Proof.
  cbv zeta.
  destruct (successive_initializations_are_isolated Sample.collab 1 7 Sample.world0)
    as (l1 & l2 & H1 & H2 & Hne & _).
  - reflexivity.
  - eexists. vm_compute. reflexivity.
  - eexists. vm_compute. reflexivity.
  - vm_compute. reflexivity.
  - vm_compute. reflexivity.
  - exists l1, l2. split; [exact H1|]. split; [exact H2|exact Hne].
Defined.

(** Rendering with the sample engine keeps an empty module cache empty. *)
Lemma render_leaves_registries_alone_witness :
  Forall (fun r => require_cache (w_env (snd r)) = require_cache (w_env Sample.world0)
                   /\ registered (w_env (snd r)) = registered (w_env Sample.world0)
                   /\ fonts (w_env (snd r)) = fonts (w_env Sample.world0))
         (render_calls Sample.collab_no_canvas Sample.facade (VRef 2) VUndefined
            Sample.world0).
Proof.
  apply (render_leaves_registries_alone Sample.collab_no_canvas Sample.facade (VRef 2)
           VUndefined Sample.world0).
  intros m sf c e. simpl. repeat split.
Defined.

